(** * Agentic Day Planner: enrichment tools and workflow guard

    A shallow embedding of [tools.py] (geocoding, weather outlook, city news,
    local spots) and of the entry guard of [agents.py], with the properties
    the specification states about them.

    Modelling conventions.
    - Python [str] is [string]; [str.lower], [str.strip] and [str.title] are
      modelled on ASCII text.
    - Python floats (coordinates, distances, scores) are rationals [Q]; the
      arithmetic of the score ([- 2], [- 1.5], [- 1], [max(_, 0)]) is exact
      there.  The haversine computation [_km_distance] uses [sin], [cos] and
      [atan2]; it is a parameter of the development.
    - Network calls ([requests.get], [requests.post]) are parameters that
      return either a decoded body or a transport failure (which the code
      lets propagate as an exception).  A task run by the crew is a parameter
      that returns a text or raises.
    - An entry of a precipitation series is a number or a JSON [null].
    - A function that can raise returns an [outcome]. *)

From Stdlib Require Import ZArith QArith Qround Qabs Qminmax String Ascii List Lia Bool.
From Stdlib Require Import DecimalString Sorted Permutation Lqa.
From stdpp Require Import base gmap sets list strings.

Open Scope string_scope.

(** ** Python values shared by the three tools *)

Module Py.

(** Exceptions the modelled code raises or lets propagate. *)
Inductive exn : Type :=
| ValueError (msg : string)
| IndexError
| TypeError
| RequestException.

Inductive outcome (A : Type) : Type :=
| Return (a : A)
| Raise (e : exn).
Arguments Return {A} a.
Arguments Raise {A} e.

(** The result of an HTTP call after [raise_for_status()]. *)
Inductive http (A : Type) : Type :=
| Ok (body : A)
| Failed.
Arguments Ok {A} body.
Arguments Failed {A}.

Definition newline : string := String (ascii_of_nat 10) EmptyString.

(** [not s] for a string. *)
Definition is_empty (s : string) : bool :=
  match s with EmptyString => true | String _ _ => false end.

(** Truthiness of [d.get(k)] for a string-valued entry. *)
Definition str_truthy (v : option string) : bool :=
  match v with Some s => negb (is_empty s) | None => false end.

Definition is_upper (c : ascii) : bool :=
  (65 <=? nat_of_ascii c)%nat && (nat_of_ascii c <=? 90)%nat.

Definition is_lower (c : ascii) : bool :=
  (97 <=? nat_of_ascii c)%nat && (nat_of_ascii c <=? 122)%nat.

Definition lower_char (c : ascii) : ascii :=
  if is_upper c then ascii_of_nat (nat_of_ascii c + 32) else c.

Definition upper_char (c : ascii) : ascii :=
  if is_lower c then ascii_of_nat (nat_of_ascii c - 32) else c.

(** [s.lower()] *)
Fixpoint lower (s : string) : string :=
  match s with
  | EmptyString => EmptyString
  | String c r => String (lower_char c) (lower r)
  end.

(** [needle in hay] *)
Fixpoint contains (needle hay : string) : bool :=
  String.prefix needle hay
  || match hay with
     | EmptyString => false
     | String _ r => contains needle r
     end.

(** [any(word in hay for word in words)] *)
Definition contains_any (words : list string) (hay : string) : bool :=
  existsb (fun w => contains w hay) words.

(** [sep.join(parts)] *)
Fixpoint join (sep : string) (parts : list string) : string :=
  match parts with
  | [] => EmptyString
  | [p] => p
  | p :: rest => p ++ sep ++ join sep rest
  end.

(** [str(n)] for a non-negative integer. *)
Definition show_N (n : N) : string := NilZero.string_of_uint (N.to_uint n).

(** [str(z)] for an integer. *)
Definition show_Z (z : Z) : string :=
  match z with
  | Zneg p => "-" ++ show_N (Npos p)
  | _ => show_N (Z.to_N z)
  end.

Definition Qlt_bool (a b : Q) : bool := negb (Qle_bool b a).

(** [max(a, b)] on two numbers: the first argument is kept unless the second
    is strictly greater. *)
Definition max2 (a b : Q) : Q := if Qlt_bool a b then b else a.

(** Rounding to the nearest integer, ties to the even one, as the float
    formatter does on the exact value. *)
Definition round_half_even (q : Q) : Z :=
  let f := Qfloor q in
  let r := (q - inject_Z f)%Q in
  if Qlt_bool r (1 # 2) then f
  else if Qlt_bool (1 # 2) r then (f + 1)%Z
  else if Z.even f then f else (f + 1)%Z.

(** [f"{q:.1f}"] *)
Definition format_1f (q : Q) : string :=
  let t := round_half_even (Qabs q * 10) in
  (if Qlt_bool q 0 then "-" else "")
  ++ show_N (Z.to_N (t / 10)) ++ "." ++ show_N (Z.to_N (t mod 10)).

End Py.

Import Py.

(** ** Geocoder: [_lookup_coordinates] *)

Module Geo.

(** One entry of the geocoder's [results] array. *)
Record geo_match : Type := {
  latitude : Q;
  longitude : Q;
  match_name : option string;
  admin1 : option string;
  country : option string
}.

(** [filter(None, parts)] on optional strings. *)
Fixpoint drop_falsy (parts : list (option string)) : list string :=
  match parts with
  | [] => []
  | p :: rest =>
      if str_truthy p then default "" p :: drop_falsy rest else drop_falsy rest
  end.

Section Lookup.

(** The geocoding endpoint: the [results] array of the decoded body ([[]]
    when the key is absent or empty), or a transport failure. *)
Variable geocode_api : string -> http (list geo_match).

Definition _lookup_coordinates (location : string)
  : outcome (option (Q * Q * string)) :=
  if is_empty location then Return None
  else
    match geocode_api location with
    | Failed => Raise RequestException
    | Ok [] => Return None
    | Ok (m :: _) =>
        let label :=
          join ", " (drop_falsy [match_name m; admin1 m; country m]) in
        Return (Some (latitude m, longitude m, label))
    end.

(** A location the geocoder answers with no result. *)
Definition unresolvable (location : string) : Prop :=
  geocode_api location = Ok [].

End Lookup.

End Geo.

Import Geo.

(** ** Local spots: [get_local_spots] *)

Module Spots.

Definition POI_TAGS : list (string * string * string) :=
  [ ("leisure", "stadium", "Stadium");
    ("leisure", "pitch", "Sports Pitch");
    ("leisure", "sports_centre", "Sports Centre");
    ("amenity", "cinema", "Cinema");
    ("amenity", "theatre", "Theatre");
    ("shop", "mall", "Mall");
    ("leisure", "park", "Park");
    ("tourism", "attraction", "Attraction");
    ("amenity", "restaurant", "Restaurant") ].

(** The nested [center] object of a way or relation. *)
Record center_obj : Type := {
  center_lat : option Q;
  center_lon : option Q
}.

(** One entry of the Overpass [elements] array.  An absent [tags] key reads as
    the empty dictionary, as [element.get("tags", {})] does. *)
Record element : Type := {
  tags : gmap string string;
  lat : option Q;
  lon : option Q;
  center : option center_obj
}.

Record spot : Type := {
  name : string;
  label : string;
  distance : Q;
  score : Q
}.

(** The first-match scan of [_tag_label] over the tag table. *)
Fixpoint scan_tags (table : list (string * string * string))
  (tgs : gmap string string) : option string :=
  match table with
  | [] => None
  | (key, value, lbl) :: rest =>
      if bool_decide (tgs !! key = Some value) then Some lbl
      else scan_tags rest tgs
  end.

Definition _tag_label (tgs : gmap string string) : string :=
  match scan_tags POI_TAGS tgs with
  | Some lbl => lbl
  | None =>
      if str_truthy (tgs !! "amenity") then default "" (tgs !! "amenity")
      else if str_truthy (tgs !! "leisure") then default "" (tgs !! "leisure")
      else if str_truthy (tgs !! "tourism") then default "" (tgs !! "tourism")
      else "Point of interest"
  end.

(** Truthiness of an optional number: [None] and zero are falsy. *)
Definition num_truthy (v : option Q) : bool :=
  match v with Some q => negb (Qeq_bool q 0) | None => false end.

(** [a or b] on optional numbers. *)
Definition num_or (a b : option Q) : option Q :=
  if num_truthy a then a else b.

(** [element.get("lat") or element.get("center", {}).get("lat")] *)
Definition elem_lat (e : element) : option Q :=
  num_or (lat e) (match center e with Some c => center_lat c | None => None end).

Definition elem_lon (e : element) : option Q :=
  num_or (lon e) (match center e with Some c => center_lon c | None => None end).

(** The score adjustments of the loop body, before the floor. *)
Definition adjust (interest_lower lbl : string) (dist : Q) : Q :=
  let score := dist in
  if negb (is_empty interest_lower) then
    let score :=
      if contains "cricket" interest_lower && contains "stadium" (lower lbl)
      then (score - 2)%Q else score in
    let score :=
      if contains "movie" interest_lower && contains "cinema" (lower lbl)
      then (score - 1.5)%Q else score in
    let score :=
      if contains_any ["game"; "gaming"; "mall"] interest_lower
         && bool_decide (lbl = "Mall")
      then (score - 1)%Q else score in
    score
  else score.

Section Ranker.

(** [_km_distance lat1 lon1 lat2 lon2] *)
Variable _km_distance : Q -> Q -> Q -> Q -> Q.

Variables (lat0 lon0 : Q) (interest_lower : string).

(** The state of the loop: the spots appended so far and the [seen] set. *)
Definition loop_state : Type := list spot * gset string.

(** One iteration of the loop over [elements]. *)
Definition visit (st : loop_state) (e : element) : loop_state :=
  let '(spots, seen) := st in
  match tags e !! "name" with
  | None => st
  | Some nm =>
      if is_empty nm || bool_decide (nm ∈ seen) then st
      else
        match elem_lat e, elem_lon e with
        | Some la, Some lo =>
            let dist := _km_distance lat0 lon0 la lo in
            let lbl := _tag_label (tags e) in
            let sc := adjust interest_lower lbl dist in
            ((spots ++ [ {| name := nm; label := lbl; distance := dist;
                            score := max2 sc 0 |} ])%list,
             {[ nm ]} ∪ seen)
        | _, _ => st
        end
  end.

Definition scan (elements : list element) (st : loop_state) : loop_state :=
  fold_left visit elements st.

Definition collect (elements : list element) : list spot :=
  fst (scan elements ([], ∅)).

End Ranker.

(** [spots.sort(key=lambda s: s["score"])]: the library sort is stable; it is
    modelled by a stable insertion sort, which yields the same list as any
    other stable sort on a total preorder. *)
Fixpoint insert_by_score (s : spot) (l : list spot) : list spot :=
  match l with
  | [] => [s]
  | t :: rest =>
      if Qle_bool (score s) (score t) then s :: t :: rest
      else t :: insert_by_score s rest
  end.

Fixpoint sort_by_score (l : list spot) : list spot :=
  match l with
  | [] => []
  | s :: rest => insert_by_score s (sort_by_score rest)
  end.

(** One rendered venue line. *)
Definition render (s : spot) : string :=
  "- " ++ name s ++ " (" ++ label s ++ ") · "
  ++ format_1f (distance s) ++ " km away".

Section Tool.

Variable geocode_api : string -> http (list geo_match).

(** The Overpass endpoint, queried around a coordinate with the fixed 8 km
    radius: the [elements] array of the decoded body, or a transport
    failure. *)
Variable overpass_api : Q -> Q -> http (list element).

Variable _km_distance : Q -> Q -> Q -> Q -> Q.

(** The lines of the successful report, before they are joined. *)
Definition report_lines (pretty_label interest_lower : string)
  (spots : list spot) : list string :=
  let header :=
    "Highlighted venues near " ++ pretty_label ++ " (within ~8 km):" in
  let bias := "Interest bias applied for: " ++ interest_lower ++ "." in
  header
  :: app (map render (take 7 (sort_by_score spots)))
         (if negb (is_empty interest_lower) then [bias] else []).

Definition get_local_spots (location : string) (interest : option string)
  : outcome string :=
  match _lookup_coordinates geocode_api location with
  | Raise e => Raise e
  | Return None =>
      Return ("Unable to locate coordinates for '" ++ location ++ "'.")
  | Return (Some (la, lo, pretty_label)) =>
      match overpass_api la lo with
      | Failed => Raise RequestException
      | Ok elements =>
          let interest_lower := lower (default "" interest) in
          let spots := collect _km_distance la lo interest_lower elements in
          match spots with
          | [] =>
              Return ("No notable venues were detected within 8km of "
                      ++ pretty_label ++ ".")
          | _ :: _ =>
              Return (join newline
                        (report_lines pretty_label interest_lower spots))
          end
      end
  end.

End Tool.

End Spots.

(** ** Dates and times: the parts of [datetime] the tools use *)

Module Clock.

Record date : Type := {
  year : Z;
  month : Z;
  day : Z
}.

(** A [datetime] normalised to UTC. *)
Record datetime : Type := {
  on : date;
  hour : Z;
  minute : Z;
  second : Z;
  microsecond : Z
}.

Definition date_eqb (a b : date) : bool :=
  (year a =? year b)%Z && (month a =? month b)%Z && (day a =? day b)%Z.

(** Zero-padded decimal of a non-negative integer, as [%02d] and [%04d]. *)
Definition pad (width : nat) (z : Z) : string :=
  let s := show_N (Z.to_N z) in
  String.concat "" (repeat "0" (width - String.length s)) ++ s.

(** [d.isoformat()] *)
Definition isoformat (d : date) : string :=
  pad 4 (year d) ++ "-" ++ pad 2 (month d) ++ "-" ++ pad 2 (day d).

(** [dt.strftime("%Y-%m-%d %H:%M UTC")] *)
Definition strftime_minutes (dt : datetime) : string :=
  isoformat (on dt) ++ " " ++ pad 2 (hour dt) ++ ":" ++ pad 2 (minute dt)
  ++ " UTC".

Definition is_leap (y : Z) : bool :=
  ((y mod 4 =? 0) && (negb (y mod 100 =? 0) || (y mod 400 =? 0)))%Z.

Definition days_in_month (y m : Z) : Z :=
  match m with
  | 2 => if is_leap y then 29 else 28
  | 4 | 6 | 9 | 11 => 30
  | _ => 31
  end%Z.

Definition days_before_year (y : Z) : Z :=
  let p := (y - 1)%Z in (p * 365 + p / 4 - p / 100 + p / 400)%Z.

Definition days_before_month (y m : Z) : Z :=
  fold_left Z.add
    (map (fun k => days_in_month y (Z.of_nat k)) (seq 1 (Z.to_nat m - 1))) 0%Z.

(** [d.toordinal()] *)
Definition toordinal (d : date) : Z :=
  (days_before_year (year d) + days_before_month (year d) (month d) + day d)%Z.

(** Microseconds since the start of the proleptic calendar. *)
Definition micros (dt : datetime) : Z :=
  ((((toordinal (on dt) * 24 + hour dt) * 60 + minute dt) * 60 + second dt)
   * 1000000 + microsecond dt)%Z.

Section Parsing.

(** [datetime.strptime(value, "%Y-%m-%d").date()], [None] on [ValueError]. *)
Variable strptime_ymd : string -> option date.

Definition _parse_iso_date (value : option string) : option date :=
  match value with
  | None => None
  | Some v => if is_empty v then None else strptime_ymd v
  end.

(** [_parse_iso_date(target_date) or _today_utc()] *)
Definition resolve_day (now : datetime) (target_date : option string) : date :=
  match _parse_iso_date target_date with
  | Some d => d
  | None => on now
  end.

End Parsing.

End Clock.

Import Clock.

(** ** Weather outlook: [get_weather_outlook] *)

Module Weather.

Section Outlook.

(** The numbers of the temperature and humidity series, with [str] on them. *)
Variable num : Type.
Variable show_num : num -> string.

(** An entry of a precipitation series is a whole number of percent, or
    [None] for a JSON [null]. *)
Record daily_series : Type := {
  temperature_2m_max : list num;
  temperature_2m_min : list num;
  precipitation_probability_max : list (option Z);
  sunrise : list string;
  sunset : list string
}.

Record hourly_series : Type := {
  temperature_2m : list num;
  precipitation_probability : list (option Z);
  relative_humidity_2m : list num
}.

(** The decoded forecast.  An absent key reads as the empty series, as
    [forecast.get("daily", {})] and [daily.get(key, [])] do. *)
Record forecast : Type := {
  daily : daily_series;
  hourly : hourly_series
}.

(** [_pick(series)], already rendered by the f-string. *)
Definition _pick {A : Type} (show : A -> string) (series : list A) : string :=
  match series with
  | x :: _ => show x
  | [] => "N/A"
  end.

(** [str] on an entry of a precipitation series. *)
Definition show_entry (v : option Z) : string :=
  match v with
  | Some z => show_Z z
  | None => "None"
  end.

(** [max(series)] from the second item on: each item is compared with the
    running maximum by [item > maximum], which raises [TypeError] when either
    is [None], and replaces it when strictly greater. *)
Fixpoint max_from (cur : option Z) (rest : list (option Z))
  : outcome (option Z) :=
  match rest with
  | [] => Return cur
  | item :: r =>
      match item, cur with
      | Some x, Some c => max_from (if (c <? x)%Z then Some x else Some c) r
      | _, _ => Raise TypeError
      end
  end.

Definition precip_risk (hourly_precip : list (option Z)) : outcome string :=
  match hourly_precip with
  | x :: r =>
      match max_from x r with
      | Return m => Return (show_entry m ++ "%")
      | Raise e => Raise e
      end
  | [] => Return "No precipitation data"
  end.

(** [series[len(series) // 2]]; indexing past the end raises. *)
Definition at_midpoint (series : list num) : outcome num :=
  match series !! (length series / 2)%nat with
  | Some x => Return x
  | None => Raise IndexError
  end.

Definition humidity_snapshot (humidity : list num) : outcome string :=
  match humidity with
  | [] => Return "N/A"
  | _ :: _ =>
      match at_midpoint humidity with
      | Return x => Return (show_num x ++ "%")
      | Raise e => Raise e
      end
  end.

Definition midday_temp (temperature : list num) : outcome string :=
  match temperature with
  | [] => Return "N/A"
  | _ :: _ =>
      match at_midpoint temperature with
      | Return x => Return (show_num x ++ "°C")
      | Raise e => Raise e
      end
  end.

(** The precipitation line of the outlook. *)
Definition precip_line (fc : forecast) (precip_text : string) : string :=
  "- Peak precipitation probability: "
  ++ _pick show_entry (precipitation_probability_max (daily fc))
  ++ "% (hourly max " ++ precip_text ++ ")".

Definition outlook_lines (pretty_label day_str timestamp : string)
  (fc : forecast) (precip_text humidity_text midday_text : string)
  : list string :=
  [ "Weather outlook for " ++ pretty_label ++ " on " ++ day_str
      ++ " (generated " ++ timestamp ++ "):";
    "- Daily range: " ++ _pick show_num (temperature_2m_min (daily fc))
      ++ "°C – " ++ _pick show_num (temperature_2m_max (daily fc))
      ++ "°C (midday ~ " ++ midday_text ++ ")";
    "- Humidity snapshot: " ++ humidity_text;
    precip_line fc precip_text;
    "- Sunrise at " ++ _pick id (sunrise (daily fc)) ++ ", sunset at "
      ++ _pick id (sunset (daily fc));
    "- Tip: favor indoor plans if precipitation exceeds 40% or humidity stays above 80%." ].

Variable geocode_api : string -> http (list geo_match).

(** [_fetch_forecast lat lon start_date end_date] *)
Variable _fetch_forecast : Q -> Q -> string -> string -> http forecast.

Variable strptime_ymd : string -> option date.

(** The clock is read twice: [first_read] is the instant of [_today_utc()],
    which gives the default day, and [second_read] the instant of the
    timestamp of the report. *)
Definition get_weather_outlook (first_read second_read : datetime)
  (location : string) (target_date : option string) : outcome string :=
  match _lookup_coordinates geocode_api location with
  | Raise e => Raise e
  | Return None =>
      Return ("Unable to locate coordinates for '" ++ location
              ++ "'. Ask the user for a clearer location.")
  | Return (Some (la, lo, pretty_label)) =>
      let day_str :=
        isoformat (resolve_day strptime_ymd first_read target_date) in
      match _fetch_forecast la lo day_str day_str with
      | Failed => Raise RequestException
      | Ok fc =>
          match precip_risk (precipitation_probability (hourly fc)) with
          | Raise e => Raise e
          | Return precip_text =>
              match humidity_snapshot (relative_humidity_2m (hourly fc)) with
              | Raise e => Raise e
              | Return humidity_text =>
                  match midday_temp (temperature_2m (hourly fc)) with
                  | Raise e => Raise e
                  | Return midday_text =>
                      Return (join newline
                                (outlook_lines pretty_label day_str
                                   (strftime_minutes second_read) fc
                                   precip_text humidity_text midday_text))
                  end
              end
          end
      end
  end.

End Outlook.

Arguments temperature_2m_max {num} _.
Arguments temperature_2m_min {num} _.
Arguments precipitation_probability_max {num} _.
Arguments sunrise {num} _.
Arguments sunset {num} _.
Arguments temperature_2m {num} _.
Arguments precipitation_probability {num} _.
Arguments relative_humidity_2m {num} _.
Arguments daily {num} _.
Arguments hourly {num} _.
Arguments at_midpoint {num} series.
Arguments humidity_snapshot {num} show_num humidity.
Arguments midday_temp {num} show_num temperature.
Arguments precip_line {num} fc precip_text.
Arguments outlook_lines {num} show_num pretty_label day_str timestamp fc
  precip_text humidity_text midday_text.
Arguments get_weather_outlook {num} show_num geocode_api _fetch_forecast
  strptime_ymd first_read second_read location target_date.

End Weather.

(** ** City news: [get_city_news] *)

Module News.

(** One [item] element of the feed.  A child element that is absent is
    [None]; [findtext] then yields its default.  [source] is the text of the
    [source] child when there is one (itself [None] when the child is
    empty). *)
Record news_item : Type := {
  pubDate : option string;
  title : option string;
  description : option string;
  link : option string;
  source : option (option string)
}.

Definition pub_date_of (item : news_item) : string := default "" (pubDate item).
Definition title_of (item : news_item) : string :=
  default "Untitled" (title item).
Definition description_of (item : news_item) : string :=
  default "" (description item).
Definition link_of (item : news_item) : string := default "" (link item).
Definition source_name_of (item : news_item) : string :=
  match source item with
  | Some (Some text) => text
  | Some None => "None"
  | None => "Local outlet"
  end.

(** Whitespace as [str.strip()] sees it on ASCII text. *)
Definition is_space (c : ascii) : bool :=
  let n := nat_of_ascii c in
  ((9 <=? n) && (n <=? 13) || (28 <=? n) && (n <=? 32))%nat.

Fixpoint lstrip (s : string) : string :=
  match s with
  | EmptyString => EmptyString
  | String c r => if is_space c then lstrip r else s
  end.

Fixpoint rstrip (s : string) : string :=
  match s with
  | EmptyString => EmptyString
  | String c r =>
      let r' := rstrip r in
      if is_empty r' && is_space c then EmptyString else String c r'
  end.

(** [s.strip()] *)
Definition strip (s : string) : string := rstrip (lstrip s).

(** [s.split(",")], with the token being read carried along. *)
Fixpoint split_from (tok s : string) : list string :=
  match s with
  | EmptyString => [tok]
  | String c r =>
      if Ascii.eqb c "," then tok :: split_from EmptyString r
      else split_from (tok ++ String c EmptyString) r
  end.

Definition split_comma (s : string) : list string := split_from EmptyString s.

(** The [keywords] comprehension. *)
Definition keywords (interests : option string) : list string :=
  map (fun token => lower (strip token))
    (List.filter (fun token => negb (is_empty (strip token)))
       (split_comma (default "" interests))).

Section Filter.

(** [parsedate_to_datetime(pub_date).astimezone(timezone.utc)], [None] when it
    raises [TypeError] or [ValueError].  A date so close to year 1 or year
    9999 that the conversion to UTC overflows is outside the model. *)
Variable parse_pub_date : string -> option datetime.

(** [_format_news_age(pub_date)] at the instant [now]. *)
Definition _format_news_age (now : datetime) (pub_date : string) : string :=
  match parse_pub_date pub_date with
  | None => "recent"
  | Some published =>
      let hours := ((micros now - micros published) / 3600000000)%Z in
      if (hours <? 1)%Z then "just now"
      else if (hours <? 24)%Z then show_Z hours ++ "h ago"
      else show_Z (hours / 24) ++ "d ago"
  end.

Variables (now : datetime) (target_day : date) (kws : list string).

(** The first test of the loop body: [true] when the item hits [continue]. *)
Definition wrong_day (item : news_item) : bool :=
  let pub_date := pub_date_of item in
  if is_empty pub_date then false
  else
    match parse_pub_date pub_date with
    | Some published => negb (date_eqb (on published) target_day)
    | None => false
    end.

(** The second test of the loop body: [true] when the item hits [continue]. *)
Definition off_topic (item : news_item) : bool :=
  let title_lower := lower (title_of item) in
  let desc_lower := lower (description_of item) in
  negb (match kws with [] => true | _ :: _ => false end)
  && negb (existsb (fun keyword =>
                      contains keyword title_lower
                      || contains keyword desc_lower) kws).

(** The line appended for a kept item. *)
Definition entry (item : news_item) : string :=
  "- " ++ title_of item ++ " (" ++ source_name_of item ++ ", "
  ++ _format_news_age now (pub_date_of item) ++ ")" ++ newline ++ "  "
  ++ link_of item.

(** The loop over [items], with [filtered] as built so far; it stops as soon
    as [filtered] holds five lines. *)
Fixpoint news_loop (items : list news_item) (filtered : list string)
  : list string :=
  match items with
  | [] => filtered
  | item :: rest =>
      if wrong_day item then news_loop rest filtered
      else if off_topic item then news_loop rest filtered
      else
        let filtered' := (filtered ++ [entry item])%list in
        if (length filtered' =? 5)%nat then filtered'
        else news_loop rest filtered'
  end.

(** The filter as the specification words it: the date test, then the keyword
    test, then the cap. *)
Definition date_ok (item : news_item) : bool :=
  match parse_pub_date (pub_date_of item) with
  | Some published =>
      is_empty (pub_date_of item) || date_eqb (on published) target_day
  | None => true
  end.

Definition keyword_ok (item : news_item) : bool :=
  match kws with
  | [] => true
  | _ :: _ =>
      existsb (fun keyword =>
                 contains keyword (lower (title_of item))
                 || contains keyword (lower (description_of item))) kws
  end.

Definition select (items : list news_item) : list news_item :=
  take 5 (List.filter keyword_ok (List.filter date_ok items)).

(** Both tests as one. *)
Definition kept (item : news_item) : bool :=
  date_ok item && keyword_ok item.

End Filter.

Section Tool.

(** The feed endpoint, queried for a location: the response text, or a
    transport failure. *)
Variable news_api : string -> http string.

(** [ET.fromstring(text)] followed by [root.findall(".//item")]; [None] on
    [ET.ParseError]. *)
Variable parse_feed : string -> option (list news_item).

Variable parse_pub_date : string -> option datetime.
Variable strptime_ymd : string -> option date.

Definition get_city_news (now : datetime) (location : string)
  (target_date interests : option string) : outcome string :=
  if is_empty location then Return "Location not provided for news lookup."
  else
    let target_day := resolve_day strptime_ymd now target_date in
    let kws := keywords interests in
    match news_api location with
    | Failed => Raise RequestException
    | Ok text =>
        match parse_feed text with
        | None => Return ("Unable to parse news feed for " ++ location ++ ".")
        | Some items =>
            match news_loop parse_pub_date now target_day kws items [] with
            | [] =>
                let fallback := map title_of (take 3 items) in
                Return ("No date-matching headlines found for " ++ location
                        ++ " on " ++ isoformat target_day ++ "." ++ newline
                        ++ "Sample current stories: "
                        ++ match fallback with
                           | [] => "N/A"
                           | _ :: _ => join ", " fallback
                           end
                        ++ ".")
            | (_ :: _) as filtered =>
                Return ("City news for " ++ location ++ " on "
                        ++ isoformat target_day ++ ":" ++ newline
                        ++ join newline filtered)
            end
        end
    end.

End Tool.

End News.

(** ** The planning workflow: [plan_day_workflow] *)

Module Workflow.

(** What the workflow does to the outside world, in order. *)
Inductive event : Type :=
| LlmBuilt
| AgentCreated (role : string)
| Notified (stage message : string)
| TaskRun (role description expected_output : string).

Record plan_result : Type := {
  persona : string;
  weather : string;
  local_insights : string;
  plan : string;
  date : string;
  commitments : string;
  adjustments : string
}.

(** Computations that log events and may raise. *)
Definition M (A : Type) : Type := list event -> outcome A * list event.

Definition ret {A : Type} (a : A) : M A := fun log => (Return a, log).

Definition raise {A : Type} (e : exn) : M A := fun log => (Raise e, log).

Definition bind {A B : Type} (m : M A) (k : A -> M B) : M B :=
  fun log =>
    match m log with
    | (Return a, log') => k a log'
    | (Raise e, log') => (Raise e, log')
    end.

Definition emit (ev : event) : M unit :=
  fun log => (Return tt, (log ++ [ev])%list).

(** A call that returns or raises, as a computation. *)
Definition lift {A : Type} (o : outcome A) : M A := fun log => (o, log).

Notation "x <- m ;; k" := (bind m (fun x => k))
  (at level 100, m at next level, right associativity).
Notation "m ;;; k" := (bind m (fun _ => k))
  (at level 100, right associativity).

(** [d.get(key)] on a dictionary kept in insertion order. *)
Fixpoint dict_get (d : list (string * string)) (key : string)
  : option string :=
  match d with
  | [] => None
  | (k, v) :: rest => if String.eqb k key then Some v else dict_get rest key
  end.

(** [value or fallback] on an optional string. *)
Definition str_or (v : option string) (fallback : string) : string :=
  if str_truthy v then default "" v else fallback.

(** [s.title()]: a letter is upper-cased after a non-letter and lower-cased
    after a letter. *)
Fixpoint title_from (prev_cased : bool) (s : string) : string :=
  match s with
  | EmptyString => EmptyString
  | String c r =>
      if is_upper c || is_lower c then
        String (if prev_cased then lower_char c else upper_char c)
               (title_from true r)
      else String c (title_from false r)
  end.

Definition title (s : string) : string := title_from false s.

Definition _format_user_context (user_data : list (string * string))
  : string :=
  join newline
    (map (fun kv => title (fst kv) ++ ": " ++ str_or (Some (snd kv)) "N/A")
       user_data).

Section Run.

(** [crew.kickoff()] for a one-task crew of the given role, description and
    expected output: the text of the result, as [_stringify_output] gives it,
    or the exception the call raises. *)
Variable kickoff : string -> string -> string -> outcome string.

(** Whether a [progress] callback was given. *)
Variable progress : bool.

Definition _notify (stage message : string) : M unit :=
  if progress then emit (Notified stage message) else ret tt.

Definition _run_single_task (role description expected_output : string)
  : M string :=
  emit (TaskRun role description expected_output) ;;;
  lift (kickoff role description expected_output).

Definition profile_role : string := "User Data Curator".
Definition weather_role : string := "Climate Analyst".
Definition insights_role : string := "City Culture Scout".
Definition planning_role : string := "Personal Day Planner".

Definition plan_day_workflow (user_data : list (string * string))
  (plan_date : string) (commitments adjustments : option string)
  : M plan_result :=
  if negb (str_truthy (dict_get user_data "location")) then
    raise (ValueError "Location is required to generate the day plan.")
  else if is_empty plan_date then
    raise (ValueError "Plan date is required.")
  else
    let location := default "" (dict_get user_data "location") in
    emit LlmBuilt ;;;
    emit (AgentCreated profile_role) ;;;
    emit (AgentCreated weather_role) ;;;
    emit (AgentCreated insights_role) ;;;
    emit (AgentCreated planning_role) ;;;
    let user_context := _format_user_context user_data in
    _notify "persona" "Summarizing your vibe for this day off..." ;;;
    profile <- _run_single_task profile_role
      ("Create a JSON persona profile for a leisure day planner. "
       ++ "The user is completely off work on the specified date, so focus on lifestyle cues."
       ++ newline ++ "Plan date: " ++ plan_date ++ newline
       ++ user_context ++ newline
       ++ "Return keys: name, email, location, profession, hobbies, interests, priorities, "
       ++ "tone, ideal_pace, summary.")
      "Valid JSON document capturing the requested keys with concise values." ;;
    _notify "weather" "Checking the weather and comfort levels for the day..." ;;;
    weather <- _run_single_task weather_role
      ("Retrieve the weather outlook for the selected leisure date using GetWeatherOutlook. "
       ++ "You must call the tool with both location and target_date in ISO format."
       ++ newline ++ "Location: " ++ location ++ newline
       ++ "Date: " ++ plan_date)
      "3-5 bullet insights that mention temperature, precipitation, daylight, and comfort tips." ;;
    _notify "insights" "Hunting for venues and happenings in your city you'll love..." ;;;
    local_insights <- _run_single_task insights_role
      ("Surface concrete happenings and venues for the user's free day. "
       ++ "Use GetCityNews with location, target_date, and interest keywords to find relevant events. "
       ++ "Use GetLocalSpots to gather nearby venues for the stated hobbies/interests. "
       ++ "Tag each suggestion as Outdoor or Indoor-safe." ++ newline
       ++ "Location: " ++ location ++ newline
       ++ "Date: " ++ plan_date ++ newline
       ++ "Hobbies: " ++ str_or (dict_get user_data "hobbies") "N/A" ++ newline
       ++ "Interests: " ++ str_or (dict_get user_data "interests") "N/A")
      ("Return markdown with sections Events/Matches, Indoor Picks, Outdoor Picks. "
       ++ "List specific names with short reasons (e.g., 'Attend Hyderabad Hunters match at Gachibowli Indoor Stadium').") ;;
    _notify "planning" "Crafting your curated timeline(Final Step)..." ;;;
    plan <- _run_single_task planning_role
      ("Design a detailed leisure-day itinerary (no work items) for the specified date."
       ++ newline ++ "Date: " ++ plan_date ++ newline
       ++ "Persona JSON:" ++ newline ++ profile ++ newline
       ++ "Weather insights:" ++ newline ++ weather ++ newline
       ++ "Local picks:" ++ newline ++ local_insights ++ newline
       ++ "Fixed commitments (must appear exactly at given times): "
       ++ str_or commitments "None provided" ++ newline
       ++ "User adjustments or feedback: "
       ++ str_or adjustments "No additional preferences supplied" ++ newline
       ++ "Output should cover Morning, Midday, Afternoon, Evening, and Late Night. "
       ++ "Each block must specify concrete times and explicit venues or neighborhoods. "
       ++ "Reference at least two suggestions from the local picks, and adjust indoor/outdoor balance based on the weather. "
       ++ "Respect fixed commitments even if it requires reshuffling nearby blocks. "
       ++ "Assume the user is free the entire day and prefers a balanced pace.")
      ("Return markdown with headings: Morning, Midday, Afternoon, Evening, Late Night. "
       ++ "Under each heading provide bullet timelines (e.g., '08:00-09:30 â€“ Breakfast at ...'). "
       ++ "Do not add extra sections such as Productivity or Wellness.") ;;
    ret {| persona := profile;
           weather := weather;
           local_insights := local_insights;
           plan := plan;
           date := plan_date;
           commitments := str_or commitments "";
           adjustments := str_or adjustments "" |}.

End Run.

End Workflow.

(** ** The Overpass query: [_overpass_query] *)

Module Query.

(** The double-quote character. *)
Definition dquote : string := String (ascii_of_nat 34) EmptyString.

Section Text.

(** [str] on a float, as an f-string writes a coordinate. *)
Variable show_float : Q -> string.

(** One line of [selectors]. *)
Definition selector (radius_m : Z) (lat lon : Q)
  (row : string * string * string) : string :=
  let '(key, value, _) := row in
  "  node(around:" ++ show_Z radius_m ++ "," ++ show_float lat ++ ","
  ++ show_float lon ++ ")[" ++ dquote ++ key ++ dquote ++ "=" ++ dquote
  ++ value ++ dquote ++ "];".

Definition _overpass_query (lat lon : Q) (radius_m : Z) : string :=
  let selectors :=
    join newline (map (selector radius_m lat lon) Spots.POI_TAGS) in
  newline ++ "[out:json][timeout:25];" ++ newline ++ "(" ++ newline
  ++ selectors ++ newline ++ ");" ++ newline ++ "out center;" ++ newline.

End Text.

End Query.

(** ** The page: [run_plan] and the planner form of [app.py] *)

Module App.

Import Workflow.

(** The entries of [st.session_state] the code below writes. *)
Record session : Type := {
  result : option plan_result;
  last_status_log : option (list string);
  last_payload : option (list (string * string) * string * option string);
  latest_inputs : option (list (string * string) * string * option string)
}.

(** What the page shows, in order. *)
Inductive shown : Type :=
| Status (entry : string)
| Error (text : string).

(** [icons.get(stage, default)] *)
Definition icon (stage : string) : string :=
  if String.eqb stage "persona" then "🧠"
  else if String.eqb stage "weather" then "🌤️"
  else if String.eqb stage "insights" then "🛰️"
  else if String.eqb stage "planning" then "🗺️"
  else if String.eqb stage "done" then "✅"
  else "🤖".

(** The entry [push] appends for a stage and a message. *)
Definition push_entry (stage message : string) : string :=
  icon stage ++ " " ++ message.

(** The entries pushed through the [progress] callback during a run. *)
Fixpoint pushed (events : list event) : list string :=
  match events with
  | [] => []
  | Notified stage message :: rest => push_entry stage message :: pushed rest
  | _ :: rest => pushed rest
  end.

Section Page.

Variable kickoff : string -> string -> string -> outcome string.

(** [str(exc)] for an exception other than a [ValueError]. *)
Variable describe : exn -> string.

Definition exc_text (e : exn) : string :=
  match e with
  | ValueError msg => msg
  | _ => describe e
  end.

(** [run_plan]: the workflow runs with [push] as its callback; a result is
    stored with the log and the payload, an exception is shown and nothing is
    stored. *)
Definition run_plan (user_data : list (string * string))
  (plan_date_iso : string) (commitments adjustments : option string)
  (st : session) : session * list shown :=
  match plan_day_workflow kickoff true user_data plan_date_iso commitments
          adjustments [] with
  | (Return response, events) =>
      let log :=
        (pushed events
         ++ [push_entry "done"
               "All agents finished! Publishing your itinerary."])%list in
      ({| result := Some response;
          last_status_log := Some log;
          last_payload := Some (user_data, plan_date_iso, commitments);
          latest_inputs := latest_inputs st |},
       map Status log)
  | (Raise exc, events) =>
      (st,
       (map Status (pushed events)
        ++ [Error ("Plan generation failed: " ++ exc_text exc)])%list)
  end.



End Page.

End App.

(** ** The score and the filter as the specification states them *)

Module Stated.

Import Spots.

(** The total bonus for an interest string and a category label: each trigger
    is looked up in the lower-cased interest. *)
Definition bonus (interest lbl : string) : Q :=
  ((if contains "cricket" (lower interest) && contains "stadium" (lower lbl)
    then 2 else 0)
   + (if contains "movie" (lower interest) && contains "cinema" (lower lbl)
      then 1.5 else 0)
   + (if contains_any ["game"; "gaming"; "mall"] (lower interest)
         && bool_decide (lbl = "Mall")
      then 1 else 0))%Q.

(** Distance less the bonus, floored at zero. *)
Definition stated_score (interest lbl : string) (dist : Q) : Q :=
  Qmax 0 (dist - bonus interest lbl).

(** Where a spot of the result comes from. *)
Definition origin (km : Q -> Q -> Q -> Q -> Q) (lat0 lon0 : Q)
  (elements : list element) (s : spot) : Prop :=
  exists e la lo,
    In e elements
    /\ tags e !! "name" = Some (name s)
    /\ elem_lat e = Some la
    /\ elem_lon e = Some lo
    /\ label s = _tag_label (tags e)
    /\ distance s = km lat0 lon0 la lo.

(** [a] stands before [b] in [l]. *)
Definition before {A : Type} (a b : A) (l : list A) : Prop :=
  exists l1 l2 l3, l = (l1 ++ a :: l2 ++ b :: l3)%list.

Definition by_score (a b : spot) : Prop := (score a <= score b)%Q.

Definition has_score (q : Q) (s : spot) : bool := Qeq_bool (score s) q.

End Stated.

(** ** Sample data on which the tools can be evaluated *)

Module Samples.

Import Spots.

(** A stand-in for [_km_distance]: 100 km per degree along each axis. *)
Definition grid_km (lat1 lon1 lat2 lon2 : Q) : Q :=
  (Qabs (lat2 - lat1) * 100 + Qabs (lon2 - lon1) * 100)%Q.

Definition hyderabad : geo_match :=
  {| latitude := 17; longitude := 78; match_name := Some "Hyderabad";
     admin1 := Some "Telangana"; country := Some "India" |}.

Definition greenwich : geo_match :=
  {| latitude := 51.48; longitude := 0.01; match_name := Some "Greenwich";
     admin1 := Some "England"; country := Some "United Kingdom" |}.

(** A geocoder that knows two places. *)
Definition geocoder (location : string) : http (list geo_match) :=
  if String.eqb location "Hyderabad" then Ok [hyderabad]
  else if String.eqb location "Greenwich" then Ok [greenwich]
  else Ok [].

Definition node (tgs : list (string * string)) (la lo : Q) : element :=
  {| tags := list_to_map tgs; lat := Some la; lon := Some lo;
     center := None |}.

Definition stadium : element :=
  node [("name", "Gachibowli Stadium"); ("leisure", "stadium")] 17.03 78.

Definition cafe : element :=
  node [("name", "Chutneys"); ("amenity", "restaurant")] 17.025 78.

Definition overpass (la lo : Q) : http (list element) := Ok [cafe; stadium].

(** A park whose node lies on the prime meridian, and a cinema next to it. *)
Definition meridian_park : element :=
  node [("name", "Meridian Park"); ("leisure", "park")] 51.48 0.

Definition picture_house : element :=
  node [("name", "Picturehouse"); ("amenity", "cinema")] 51.48 0.02.

(** A forecast with three hourly values; temperatures in tenths of a degree
    stand for the floats of the feed. *)
Definition morning : datetime :=
  {| on := {| year := 2025; month := 6; day := 1 |};
     hour := 9; minute := 30; second := 0; microsecond := 0 |}.

Definition midnight_before : datetime :=
  {| on := {| year := 2025; month := 5; day := 31 |};
     hour := 23; minute := 59; second := 59; microsecond := 999000 |}.

Definition sample_forecast : Weather.forecast Z :=
  {| Weather.daily :=
       {| Weather.temperature_2m_max := [34%Z];
          Weather.temperature_2m_min := [24%Z];
          Weather.precipitation_probability_max := [Some 35%Z];
          Weather.sunrise := ["2025-06-01T05:41"];
          Weather.sunset := ["2025-06-01T18:47"] |};
     Weather.hourly :=
       {| Weather.temperature_2m := [25%Z; 31%Z; 28%Z];
          Weather.precipitation_probability :=
            [Some 10%Z; Some 90%Z; Some 20%Z];
          Weather.relative_humidity_2m := [70%Z; 55%Z; 62%Z; 66%Z] |} |}.

Definition june_1 : date := {| year := 2025; month := 6; day := 1 |}.
Definition june_2 : date := {| year := 2025; month := 6; day := 2 |}.

Definition late_morning : datetime :=
  {| on := june_1; hour := 9; minute := 45; second := 0; microsecond := 0 |}.

Definition evening : datetime :=
  {| on := june_1; hour := 20; minute := 0; second := 0; microsecond := 0 |}.

(** A date parser that knows the two publish dates of the sample feed. *)
Definition feed_dates (pub_date : string) : option datetime :=
  if String.eqb pub_date "Sun, 01 Jun 2025 08:00:00 GMT" then
    Some {| on := june_1; hour := 8; minute := 0; second := 0;
            microsecond := 0 |}
  else if String.eqb pub_date "Sat, 31 May 2025 21:15:00 GMT" then
    Some {| on := {| year := 2025; month := 5; day := 31 |};
            hour := 21; minute := 15; second := 0; microsecond := 0 |}
  else None.

Definition iso_dates (value : string) : option date :=
  if String.eqb value "2025-06-01" then Some june_1
  else if String.eqb value "2025-06-02" then Some june_2
  else None.

Definition final_report : News.news_item :=
  {| News.pubDate := Some "Sun, 01 Jun 2025 08:00:00 GMT";
     News.title := Some "Cricket final at Uppal";
     News.description := Some "Hyderabad hosts the final tonight";
     News.link := Some "https://news.example/final";
     News.source := Some (Some "Deccan Daily") |}.

Definition stale_report : News.news_item :=
  {| News.pubDate := Some "Sat, 31 May 2025 21:15:00 GMT";
     News.title := Some "Cricket fans gather for the final";
     News.description := Some "Queues at the stadium";
     News.link := Some "https://news.example/fans";
     News.source := Some (Some "City Wire") |}.

Definition undated_report : News.news_item :=
  {| News.pubDate := None;
     News.title := Some "Food festival opens";
     News.description := None;
     News.link := Some "https://news.example/food";
     News.source := None |}.

Definition sample_feed : list News.news_item :=
  [stale_report; final_report; undated_report].

(** The sample forecast with a gap in its hourly precipitation series. *)
Definition gappy_forecast : Weather.forecast Z :=
  {| Weather.daily := Weather.daily sample_forecast;
     Weather.hourly :=
       {| Weather.temperature_2m :=
            Weather.temperature_2m (Weather.hourly sample_forecast);
          Weather.precipitation_probability := [Some 10%Z; None; Some 20%Z];
          Weather.relative_humidity_2m :=
            Weather.relative_humidity_2m (Weather.hourly sample_forecast) |} |}.

End Samples.

(** ** Auxiliary notions for the further properties *)

Module Notions.

Import Spots.

(** The loop of [get_local_spots] skips [e] when [seen] is the set of names
    seen: no usable name, a name seen before, or a coordinate missing. *)
Definition skips (seen : gset string) (e : element) : Prop :=
  str_truthy (tags e !! "name") = false
  \/ (exists nm, tags e !! "name" = Some nm /\ nm ∈ seen)
  \/ elem_lat e = None
  \/ elem_lon e = None.

(** The spot the loop builds for a kept element. *)
Definition spot_of (km : Q -> Q -> Q -> Q -> Q) (lat0 lon0 : Q)
  (il nm : string) (e : element) (la lo : Q) : spot :=
  {| name := nm;
     label := _tag_label (tags e);
     distance := km lat0 lon0 la lo;
     score := max2 (adjust il (_tag_label (tags e)) (km lat0 lon0 la lo)) 0 |}.

(** No whitespace in front. *)
Definition no_lead (s : string) : Prop :=
  match s with
  | EmptyString => True
  | String c _ => News.is_space c = false
  end.

(** What kind of event it is, and for whom. *)
Definition kind (ev : Workflow.event) : string :=
  match ev with
  | Workflow.LlmBuilt => "llm"
  | Workflow.AgentCreated role => "agent: " ++ role
  | Workflow.Notified stage _ => "notify: " ++ stage
  | Workflow.TaskRun role _ _ => "task: " ++ role
  end.


(** Every task returns. *)
Definition tasks_return
  (kickoff : string -> string -> string -> outcome string) : Prop :=
  forall role description expected,
    exists text, kickoff role description expected = Return text.


(** A time of day within its ranges. *)
Definition valid_time (dt : datetime) : Prop :=
  (0 <= hour dt < 24 /\ 0 <= minute dt < 60 /\ 0 <= second dt < 60
   /\ 0 <= microsecond dt < 1000000)%Z.

End Notions.
(** * Properties *)

Import Spots Stated.

(** *** Lists and numbers *)

Lemma in_take {A : Type} (x : A) (n : nat) (l : list A) :
  In x (take n l) -> In x l.
Proof.
  revert l. induction n as [|n IH]; intros [|y l]; cbn; try tauto.
  intros [-> | H]; [left; reflexivity | right; apply IH, H].
Qed.

Lemma Qlt_bool_iff (a b : Q) : Qlt_bool a b = true <-> (a < b)%Q.
Proof.
  unfold Qlt_bool. rewrite negb_true_iff. split; intro H.
  - apply Qnot_le_lt. intro L. apply Qle_bool_iff in L. congruence.
  - destruct (Qle_bool b a) eqn:E; [|reflexivity].
    apply Qle_bool_iff in E. exfalso. exact (Qlt_not_le _ _ H E).
Qed.

Lemma max2_floor (a : Q) : (max2 a 0 == Qmax 0 a)%Q.
Proof.
  unfold max2. destruct (Qlt_bool a 0) eqn:E.
  - apply Qlt_bool_iff in E. symmetry. apply Q.max_l. apply Qlt_le_weak, E.
  - symmetry. apply Q.max_r. apply Qnot_lt_le. intro L.
    apply Qlt_bool_iff in L. congruence.
Qed.

Lemma max2_nonneg (a : Q) : (0 <= max2 a 0)%Q.
Proof.
  rewrite max2_floor. apply Q.le_max_l.
Qed.

Lemma adjust_bonus (i lbl : string) (d : Q) :
  (adjust (lower i) lbl d == d - bonus i lbl)%Q.
Proof.
  unfold adjust, bonus.
  destruct (lower i) as [|c r] eqn:E.
  - cbn. ring.
  - cbv [is_empty negb].
    destruct (contains "cricket" (String c r) && contains "stadium" (lower lbl));
    destruct (contains "movie" (String c r) && contains "cinema" (lower lbl));
    destruct (contains_any ["game"; "gaming"; "mall"] (String c r)
              && bool_decide (lbl = "Mall")); ring.
Qed.

(** *** The loop of [get_local_spots] *)

Section LoopFacts.

Variable km : Q -> Q -> Q -> Q -> Q.
Variables (lat0 lon0 : Q) (il : string).

(** What one iteration does, by cases. *)
Inductive visit_case (st : loop_state) (e : element) : loop_state -> Prop :=
| visit_skip : visit_case st e st
| visit_keep nm la lo :
    tags e !! "name" = Some nm ->
    is_empty nm = false ->
    nm ∉ st.2 ->
    elem_lat e = Some la ->
    elem_lon e = Some lo ->
    visit_case st e
      ((st.1 ++ [ {| name := nm; label := _tag_label (tags e);
                     distance := km lat0 lon0 la lo;
                     score := max2 (adjust il (_tag_label (tags e))
                                      (km lat0 lon0 la lo)) 0 |} ])%list,
       {[ nm ]} ∪ st.2).

Lemma visit_cases (st : loop_state) (e : element) :
  visit_case st e (visit km lat0 lon0 il st e).
Proof.
  destruct st as [spots seen]. unfold visit.
  destruct (tags e !! "name") as [nm|] eqn:Hn; [|constructor].
  destruct (is_empty nm) eqn:Hne; [constructor|].
  destruct (bool_decide (nm ∈ seen)) eqn:Hs; [constructor|].
  apply bool_decide_eq_false in Hs. cbn [orb].
  destruct (elem_lat e) as [la|] eqn:Hla; [|constructor].
  destruct (elem_lon e) as [lo|] eqn:Hlo; [|constructor].
  exact (visit_keep (spots, seen) e nm la lo Hn Hne Hs Hla Hlo).
Qed.

(** A property of spots that every iteration establishes for the spot it
    appends carries over to the whole result. *)
Lemma scan_spots_ind (P : element -> spot -> Prop) (elements : list element) :
  (forall e nm la lo,
      In e elements ->
      tags e !! "name" = Some nm ->
      elem_lat e = Some la ->
      elem_lon e = Some lo ->
      P e {| name := nm; label := _tag_label (tags e);
             distance := km lat0 lon0 la lo;
             score := max2 (adjust il (_tag_label (tags e))
                              (km lat0 lon0 la lo)) 0 |}) ->
  forall st s,
    In s (scan km lat0 lon0 il elements st).1 ->
    In s st.1 \/ exists e, In e elements /\ P e s.
Proof.
  induction elements as [|e rest IH]; intros HP st s Hin.
  - left. exact Hin.
  - cbn [scan fold_left] in Hin.
    apply IH in Hin.
    2:{ intros e' nm la lo He'. apply HP. right. exact He'. }
    destruct Hin as [Hin | (e' & He' & Hs)].
    + destruct (visit_cases st e) as [|nm la lo Hn Hne Hs Hla Hlo].
      * left. exact Hin.
      * cbn [fst] in Hin. apply in_app_iff in Hin.
        destruct Hin as [Hin | [<- | []]]; [left; exact Hin|].
        right. exists e. split; [left; reflexivity|].
        apply HP; [left; reflexivity | assumption ..].
    + right. exists e'. split; [right; exact He' | exact Hs].
Qed.

(** The [seen] set holds exactly the names of the spots appended so far, and
    no name is appended twice. *)
Definition names_tracked (st : loop_state) : Prop :=
  NoDup (map name st.1) /\ forall nm, nm ∈ st.2 <-> In nm (map name st.1).

Lemma visit_names_tracked (st : loop_state) (e : element) :
  names_tracked st -> names_tracked (visit km lat0 lon0 il st e).
Proof.
  intros [Hnd Hseen].
  destruct (visit_cases st e) as [|nm la lo Hn Hne Hs Hla Hlo];
    [split; assumption|].
  split; cbn [fst snd].
  - rewrite map_app. cbn [map name].
    apply NoDup_app. split; [exact Hnd|]. split.
    + intros x Hx Hx'. apply list_elem_of_In in Hx.
      apply list_elem_of_singleton in Hx'. subst x.
      apply Hs, Hseen, Hx.
    + apply NoDup_singleton.
  - intros x. rewrite elem_of_union, elem_of_singleton, map_app, in_app_iff.
    cbn [map name In]. rewrite Hseen. intuition.
Qed.

Lemma scan_names_tracked (elements : list element) (st : loop_state) :
  names_tracked st -> names_tracked (scan km lat0 lon0 il elements st).
Proof.
  revert st. induction elements as [|e rest IH]; intros st H; [exact H|].
  cbn [scan fold_left]. apply IH, visit_names_tracked, H.
Qed.

End LoopFacts.

(** *** The stable sort by score *)

Lemma insert_by_score_perm (s : spot) (l : list spot) :
  Permutation (insert_by_score s l) (s :: l).
Proof.
  induction l as [|t rest IH]; cbn [insert_by_score]; [reflexivity|].
  destruct (Qle_bool (score s) (score t)); [reflexivity|].
  rewrite IH. apply perm_swap.
Qed.

Lemma sort_by_score_perm (l : list spot) : Permutation (sort_by_score l) l.
Proof.
  induction l as [|s rest IH]; cbn [sort_by_score]; [reflexivity|].
  rewrite insert_by_score_perm. apply perm_skip, IH.
Qed.

Lemma insert_by_score_sorted (s : spot) (l : list spot) :
  StronglySorted by_score l -> StronglySorted by_score (insert_by_score s l).
Proof.
  induction 1 as [|t rest Hrest IH Hall]; cbn [insert_by_score].
  - repeat constructor.
  - destruct (Qle_bool (score s) (score t)) eqn:E.
    + apply Qle_bool_iff in E.
      constructor; [constructor; assumption|].
      constructor; [exact E|].
      eapply Forall_impl; [exact Hall|].
      intros u Hu. unfold by_score in *. eapply Qle_trans; eassumption.
    + assert (Hts : by_score t s).
      { unfold by_score. apply Qlt_le_weak, Qlt_bool_iff.
        unfold Qlt_bool. rewrite E. reflexivity. }
      constructor; [exact IH|].
      apply Forall_forall. intros u Hu.
      apply list_elem_of_In in Hu.
      apply (Permutation_in _ (insert_by_score_perm s rest)) in Hu.
      destruct Hu as [<- | Hu]; [exact Hts|].
      rewrite Forall_forall in Hall. apply Hall, list_elem_of_In, Hu.
Qed.

Lemma sort_by_score_sorted (l : list spot) :
  StronglySorted by_score (sort_by_score l).
Proof.
  induction l as [|s rest IH]; cbn [sort_by_score]; [constructor|].
  apply insert_by_score_sorted, IH.
Qed.

(** Insertion never moves a spot past another of the same score. *)
Lemma insert_by_score_stable (q : Q) (s : spot) (l : list spot) :
  List.filter (has_score q) (insert_by_score s l)
  = List.filter (has_score q) (s :: l).
Proof.
  induction l as [|t rest IH]; cbn [insert_by_score]; [reflexivity|].
  destruct (Qle_bool (score s) (score t)) eqn:E; [reflexivity|].
  cbn [List.filter] in *. rewrite IH.
  destruct (has_score q t) eqn:Ht; destruct (has_score q s) eqn:Hs;
    try reflexivity.
  exfalso. unfold has_score in *.
  apply Qeq_bool_iff in Ht, Hs.
  assert (L : (score s <= score t)%Q) by (rewrite Ht, Hs; apply Qle_refl).
  apply Qle_bool_iff in L. congruence.
Qed.

Lemma sort_by_score_stable (q : Q) (l : list spot) :
  List.filter (has_score q) (sort_by_score l) = List.filter (has_score q) l.
Proof.
  induction l as [|s rest IH]; cbn [sort_by_score]; [reflexivity|].
  rewrite insert_by_score_stable. cbn [List.filter]. rewrite IH. reflexivity.
Qed.

Lemma sorted_prefix (l : list spot) (n : nat) :
  StronglySorted by_score l -> StronglySorted by_score (take n l).
Proof.
  intros H. revert n. induction H as [|t rest Hrest IH Hall]; intros [|n];
    cbn [take firstn]; try constructor.
  - apply IH.
  - rewrite Forall_forall in *. intros u Hu. apply Hall.
    apply list_elem_of_In. apply list_elem_of_In, in_take in Hu. exact Hu.
Qed.

(** In a sorted list a spot of strictly smaller score stands before one of
    greater score. *)
Lemma sorted_before (l : list spot) (a b : spot) :
  StronglySorted by_score l -> In a l -> In b l ->
  (score a < score b)%Q -> before a b l.
Proof.
  intros Hs Ha Hb Hlt.
  induction Hs as [|t rest Hrest IH Hall].
  - destruct Ha.
  - destruct Ha as [-> | Ha].
    + destruct Hb as [-> | Hb]; [exfalso; exact (Qlt_irrefl _ Hlt)|].
      apply in_split in Hb. destruct Hb as (l2 & l3 & ->).
      exists [], l2, l3. reflexivity.
    + destruct Hb as [-> | Hb].
      * exfalso. rewrite Forall_forall in Hall.
        apply list_elem_of_In, Hall in Ha. unfold by_score in Ha.
        exact (Qlt_not_le _ _ Hlt Ha).
      * destruct (IH Ha Hb) as (l1 & l2 & l3 & ->).
        exists (t :: l1), l2, l3. reflexivity.
Qed.

(** *** One-decimal rendering *)

Lemma round_half_even_near (x : Q) :
  (Qabs (inject_Z (round_half_even x) - x) <= 1 # 2)%Q.
Proof.
  unfold round_half_even.
  pose proof (Qfloor_le x) as Hlo. pose proof (Qlt_floor x) as Hhi.
  rewrite inject_Z_plus in Hhi. change (inject_Z 1) with 1%Q in Hhi.
  apply Qabs_Qle_condition.
  destruct (Qlt_bool (x - inject_Z (Qfloor x)) (1 # 2)) eqn:E1.
  { apply Qlt_bool_iff in E1. split; lra. }
  destruct (Qlt_bool (1 # 2) (x - inject_Z (Qfloor x))) eqn:E2.
  { apply Qlt_bool_iff in E2. rewrite inject_Z_plus.
    change (inject_Z 1) with 1%Q. split; lra. }
  assert (H1 : ~ (x - inject_Z (Qfloor x) < 1 # 2)%Q).
  { intro L. apply Qlt_bool_iff in L. congruence. }
  assert (H2 : ~ (1 # 2 < x - inject_Z (Qfloor x))%Q).
  { intro L. apply Qlt_bool_iff in L. congruence. }
  destruct (Z.even (Qfloor x)).
  - split; lra.
  - rewrite inject_Z_plus. change (inject_Z 1) with 1%Q. split; lra.
Qed.

Lemma round_half_even_nonneg (x : Q) :
  (0 <= x)%Q -> (0 <= round_half_even x)%Z.
Proof.
  intros Hx. unfold round_half_even.
  assert (Hf : (0 <= Qfloor x)%Z).
  { change 0%Z with (Qfloor 0). apply Qfloor_resp_le, Hx. }
  destruct (Qlt_bool _ _); [exact Hf|].
  destruct (Qlt_bool _ _); [lia|].
  destruct (Z.even _); lia.
Qed.

Lemma show_digit_length (d : N) : (d < 10)%N -> String.length (show_N d) = 1%nat.
Proof.
  intros H.
  assert (d = 0 \/ d = 1 \/ d = 2 \/ d = 3 \/ d = 4 \/ d = 5 \/ d = 6
          \/ d = 7 \/ d = 8 \/ d = 9)%N as Hd by lia.
  repeat (destruct Hd as [-> | Hd]; [reflexivity|]). subst d. reflexivity.
Qed.

(** [format_1f] writes a sign, the integer part, a point and one digit, and
    the number written is the tenth nearest to the value. *)
Lemma format_1f_shape (q : Q) :
  exists w d : N,
    (d < 10)%N
    /\ String.length (show_N d) = 1%nat
    /\ format_1f q
       = (if Qlt_bool q 0 then "-" else "") ++ show_N w ++ "." ++ show_N d
    /\ (Qabs (inject_Z (Z.of_N w * 10 + Z.of_N d) - Qabs q * 10) <= 1 # 2)%Q.
Proof.
  set (t := round_half_even (Qabs q * 10)).
  assert (Ht : (0 <= t)%Z).
  { apply round_half_even_nonneg.
    apply Qmult_le_0_compat; [apply Qabs_nonneg | discriminate]. }
  assert (Hd : (0 <= t mod 10 < 10)%Z) by (apply Z.mod_pos_bound; lia).
  assert (Hw : (0 <= t / 10)%Z) by (apply Z.div_pos; lia).
  exists (Z.to_N (t / 10)), (Z.to_N (t mod 10)).
  assert (Hlt : (Z.to_N (t mod 10) < 10)%N) by lia.
  split; [exact Hlt|]. split; [apply show_digit_length, Hlt|].
  split; [reflexivity|].
  rewrite !Z2N.id by lia.
  replace (t / 10 * 10 + t mod 10)%Z with t
    by (rewrite (Z.div_mod t 10) at 1; lia).
  apply round_half_even_near.
Qed.

(** *** Claims about the ranker *)

Import Samples.


(** Every spot of the result: where it comes from and what it scores. *)
Lemma collect_spot (km : Q -> Q -> Q -> Q -> Q) (lat0 lon0 : Q)
  (interest : option string) (elements : list element) (s : spot) :
  In s (collect km lat0 lon0 (lower (default "" interest)) elements) ->
  origin km lat0 lon0 elements s
  /\ (score s == stated_score (default "" interest) (label s) (distance s))%Q
  /\ (0 <= score s)%Q.
Proof.
  intros Hs. unfold collect in Hs.
  apply (scan_spots_ind km lat0 lon0 (lower (default "" interest))
           (fun e s =>
              (exists la lo,
                  tags e !! "name" = Some (name s)
                  /\ elem_lat e = Some la /\ elem_lon e = Some lo
                  /\ label s = _tag_label (tags e)
                  /\ distance s = km lat0 lon0 la lo)
              /\ (score s
                  == stated_score (default "" interest) (label s)
                       (distance s))%Q
              /\ (0 <= score s)%Q)) in Hs.
  - destruct Hs as [[] | (e & He & (la & lo & H) & Hsc & Hpos)].
    split; [|split; assumption].
    exists e, la, lo. tauto.
  - intros e nm la lo _ Hn Hla Hlo. cbn [name label distance score].
    split; [exists la, lo; tauto|]. split; [|apply max2_nonneg].
    unfold stated_score. rewrite max2_floor.
    destruct (Q.max_spec 0 (adjust (lower (default "" interest))
                              (_tag_label (tags e)) (km lat0 lon0 la lo)))
      as [[L ->] | [L ->]];
    destruct (Q.max_spec 0 (km lat0 lon0 la lo
                            - bonus (default "" interest)
                                (_tag_label (tags e))))
      as [[L' ->] | [L' ->]];
    rewrite adjust_bonus in *; lra.
Qed.

(** C1. Every spot the ranker keeps comes from an element of the response, its
    distance is the great-circle distance of that element from the origin, and
    its score is that distance less the bonuses the interest string earns for
    the spot's label (2 for "cricket" with a label containing "stadium", 1.5
    for "movie" with a label containing "cinema", 1 for "game", "gaming" or
    "mall" with the label "Mall"; the interest and the label are compared in
    lower case), floored at 0.  In particular, for the interest "cricket" a
    spot labelled Stadium at 3.0 km scores 1.0 and stands before a spot at
    2.5 km that earns no bonus and scores 2.5. *)
Theorem local_spots_score :
  forall (km : Q -> Q -> Q -> Q -> Q) (lat0 lon0 : Q)
         (interest : option string) (elements : list element),
    let spots := collect km lat0 lon0 (lower (default "" interest)) elements in
    (forall s, In s spots ->
       origin km lat0 lon0 elements s
       /\ (score s
           == stated_score (default "" interest) (label s) (distance s))%Q
       /\ (0 <= score s)%Q)
    /\ (interest = Some "cricket" ->
        forall s1 s2,
          In s1 spots -> In s2 spots ->
          label s1 = "Stadium" -> (distance s1 == 3)%Q ->
          (bonus "cricket" (label s2) == 0)%Q -> (distance s2 == 2.5)%Q ->
          (score s1 == 1)%Q /\ (score s2 == 2.5)%Q
          /\ before s1 s2 (sort_by_score spots)).
Proof.
  intros km lat0 lon0 interest elements spots.
  assert (Hall := collect_spot km lat0 lon0 interest elements).
  fold spots in Hall.
  split; [exact Hall|].
  intros -> s1 s2 H1 H2 Hlbl Hd1 Hb2 Hd2.
  destruct (Hall s1 H1) as (_ & Hs1 & _).
  destruct (Hall s2 H2) as (_ & Hs2 & _).
  cbn [default] in Hs1, Hs2. unfold stated_score in Hs1, Hs2.
  rewrite Hlbl in Hs1.
  assert (Hb1 : (bonus "cricket" "Stadium" == 2)%Q) by reflexivity.
  assert (E1 : (score s1 == 1)%Q).
  { destruct (Q.max_spec 0 (distance s1 - bonus "cricket" "Stadium"))
      as [[L E] | [L E]]; rewrite E in Hs1; lra. }
  assert (E2 : (score s2 == 2.5)%Q).
  { destruct (Q.max_spec 0 (distance s2 - bonus "cricket" (label s2)))
      as [[L E] | [L E]]; rewrite E in Hs2; lra. }
  split; [exact E1|]. split; [exact E2|].
  apply sorted_before.
  - apply sort_by_score_sorted.
  - apply (Permutation_in _ (Permutation_sym (sort_by_score_perm spots))), H1.
  - apply (Permutation_in _ (Permutation_sym (sort_by_score_perm spots))), H2.
  - lra.
Qed.

(** The Hyderabad example evaluated: a stadium 3.0 km away and a restaurant
    2.5 km away, with the interest "cricket". *)
Lemma local_spots_score_witness :
  exists s1 s2,
    In s1 (collect grid_km 17 78 (lower "cricket") [cafe; stadium])
    /\ In s2 (collect grid_km 17 78 (lower "cricket") [cafe; stadium])
    /\ name s1 = "Gachibowli Stadium" /\ name s2 = "Chutneys"
    /\ (score s1 == 1)%Q /\ (score s2 == 2.5)%Q
    /\ before s1 s2
         (sort_by_score
            (collect grid_km 17 78 (lower "cricket") [cafe; stadium])).
Proof.
  set (spots := collect grid_km 17 78 (lower "cricket") [cafe; stadium]).
  set (dummy := {| name := ""; label := ""; distance := 0; score := 0 |}).
  exists (nth 1 spots dummy), (nth 0 spots dummy).
  assert (H1 : In (nth 1 spots dummy) spots)
    by (vm_compute; right; left; reflexivity).
  assert (H2 : In (nth 0 spots dummy) spots)
    by (vm_compute; left; reflexivity).
  split; [exact H1|]. split; [exact H2|].
  split; [reflexivity|]. split; [reflexivity|].
  apply (proj2 (local_spots_score grid_km 17 78 (Some "cricket")
                  [cafe; stadium]) eq_refl _ _ H1 H2);
    reflexivity.
Defined.

Lemma grid_km_nonneg (a b c d : Q) : (0 <= grid_km a b c d)%Q.
Proof.
  unfold grid_km.
  pose proof (Qabs_nonneg (c - a)). pose proof (Qabs_nonneg (d - b)). lra.
Qed.

(** C2. When the lookup yields spots, the report lists them in non-decreasing
    order of score, spots of equal score in the order in which they were first
    seen, at most 7 of them, each as "- name (label) · d.d km away" where d.d
    is the distance rounded to one decimal place. *)
Theorem local_spots_ranked_output :
  forall (geocode_api : string -> http (list geo_match))
         (overpass_api : Q -> Q -> http (list element))
         (km : Q -> Q -> Q -> Q -> Q)
         (location : string) (interest : option string)
         (la lo : Q) (pretty_label : string) (elements : list element),
    (forall a b c d, 0 <= km a b c d)%Q ->
    _lookup_coordinates geocode_api location
    = Return (Some (la, lo, pretty_label)) ->
    overpass_api la lo = Ok elements ->
    let il := lower (default "" interest) in
    let spots := collect km la lo il elements in
    spots <> [] ->
    exists ranked shown : list spot,
      Permutation ranked spots
      /\ StronglySorted by_score ranked
      /\ (forall q, List.filter (has_score q) ranked
                    = List.filter (has_score q) spots)
      /\ shown = take 7 ranked
      /\ (length shown <= 7)%nat
      /\ StronglySorted by_score shown
      /\ get_local_spots geocode_api overpass_api km location interest
         = Return
             (join newline
                (("Highlighted venues near " ++ pretty_label
                  ++ " (within ~8 km):")
                 :: app (map render shown)
                        (if is_empty il then []
                         else ["Interest bias applied for: " ++ il ++ "."])))
      /\ forall s, In s shown ->
           exists w d : N,
             (d < 10)%N
             /\ String.length (show_N d) = 1%nat
             /\ render s
                = "- " ++ name s ++ " (" ++ label s ++ ") · "
                  ++ (show_N w ++ "." ++ show_N d) ++ " km away"
             /\ (Qabs (inject_Z (Z.of_N w * 10 + Z.of_N d)
                       - distance s * 10) <= 1 # 2)%Q.
Proof.
  intros geocode_api overpass_api km location interest la lo pretty_label
    elements Hkm Hgeo Hover il spots Hne.
  exists (sort_by_score spots), (take 7 (sort_by_score spots)).
  split; [apply sort_by_score_perm|].
  split; [apply sort_by_score_sorted|].
  split; [intro q; apply sort_by_score_stable|].
  split; [reflexivity|].
  split; [rewrite length_take; lia|].
  split; [apply sorted_prefix, sort_by_score_sorted|].
  split.
  - unfold get_local_spots. rewrite Hgeo, Hover.
    fold il. fold spots. destruct spots as [|s0 rest]; [congruence|].
    unfold report_lines. destruct (is_empty il); reflexivity.
  - intros s Hs.
    assert (Hin : In s spots).
    { apply in_take in Hs.
      apply (Permutation_in _ (sort_by_score_perm spots)), Hs. }
    apply collect_spot in Hin.
    destruct Hin as ((e & ela & elo & _ & _ & _ & _ & _ & Hd) & _).
    assert (Hpos : (0 <= distance s)%Q) by (rewrite Hd; apply Hkm).
    destruct (format_1f_shape (distance s)) as (w & d & Hlt & Hlen & Hf & Hn).
    exists w, d. split; [exact Hlt|]. split; [exact Hlen|]. split.
    + unfold render. rewrite Hf.
      destruct (Qlt_bool (distance s) 0) eqn:E; [|reflexivity].
      apply Qlt_bool_iff in E. exfalso. exact (Qlt_not_le _ _ E Hpos).
    + rewrite (Qabs_pos _ Hpos) in Hn. exact Hn.
Qed.

(** The Hyderabad lookup evaluated end to end. *)
Lemma local_spots_ranked_output_witness :
  exists ranked shown : list spot,
    Permutation ranked
      (collect grid_km 17 78 (lower "cricket") [cafe; stadium])
    /\ StronglySorted by_score ranked
    /\ shown = take 7 ranked
    /\ get_local_spots geocoder overpass grid_km "Hyderabad" (Some "cricket")
       = Return
           (join newline
              (("Highlighted venues near Hyderabad, Telangana, India"
                ++ " (within ~8 km):")
               :: app (map render shown)
                      ["Interest bias applied for: cricket."])).
Proof.
  destruct (local_spots_ranked_output geocoder overpass grid_km "Hyderabad"
              (Some "cricket") 17 78 "Hyderabad, Telangana, India"
              [cafe; stadium] grid_km_nonneg eq_refl eq_refl)
    as (ranked & shown & H1 & H2 & _ & H4 & _ & _ & H7 & _).
  - vm_compute. discriminate.
  - exists ranked, shown. repeat split; assumption.
Defined.

(** The report of the Hyderabad lookup, written out. *)
Example hyderabad_report :
  get_local_spots geocoder overpass grid_km "Hyderabad" (Some "cricket")
  = Return
      (join newline
         [ "Highlighted venues near Hyderabad, Telangana, India (within ~8 km):";
           "- Gachibowli Stadium (Stadium) · 3.0 km away";
           "- Chutneys (Restaurant) · 2.5 km away";
           "Interest bias applied for: cricket." ]).
Proof. reflexivity. Qed.

(** The names of the result are pairwise distinct: of several elements with one
    name only the first that is kept contributes a spot. *)
Lemma collect_names_distinct (km : Q -> Q -> Q -> Q -> Q) (lat0 lon0 : Q)
  (il : string) (elements : list element) :
  NoDup (map name (collect km lat0 lon0 il elements)).
Proof.
  unfold collect.
  apply (scan_names_tracked km lat0 lon0 il elements ([], ∅)).
  split; [constructor|].
  intros nm. cbn. rewrite elem_of_empty. tauto.
Qed.

(** An element without a name, or whose name is in [seen], is skipped. *)
Lemma visit_unnamed_or_seen (km : Q -> Q -> Q -> Q -> Q) (lat0 lon0 : Q)
  (il : string) (spots : list spot) (seen : gset string) (e : element) :
  str_truthy (tags e !! "name") = false
  \/ (exists nm, tags e !! "name" = Some nm /\ nm ∈ seen) ->
  visit km lat0 lon0 il (spots, seen) e = (spots, seen).
Proof.
  unfold visit. intros [H | (nm & -> & Hin)].
  - destruct (tags e !! "name") as [nm|]; [|reflexivity].
    cbn in H. apply negb_false_iff in H. rewrite H. reflexivity.
  - rewrite (bool_decide_eq_true_2 _ Hin), orb_true_r. reflexivity.
Qed.

(** An element for which the loop finds no latitude or no longitude is
    skipped, and its name does not enter [seen]. *)
Lemma visit_without_coordinates (km : Q -> Q -> Q -> Q -> Q) (lat0 lon0 : Q)
  (il : string) (st : loop_state) (e : element) :
  elem_lat e = None \/ elem_lon e = None ->
  visit km lat0 lon0 il st e = st.
Proof.
  destruct st as [spots seen]. unfold visit. intros H.
  destruct (tags e !! "name") as [nm|]; [|reflexivity].
  destruct (is_empty nm || bool_decide (nm ∈ seen)); [reflexivity|].
  destruct H as [-> | ->]; [reflexivity|].
  destruct (elem_lat e); reflexivity.
Qed.

(** C3, at the input where the code departs from it.  A node that carries
    both [lat] and [lon], the longitude being 0.0, is treated as having no
    coordinate and is left out of the report. *)
Theorem local_spots_skips_zero_longitude :
  tags meridian_park !! "name" = Some "Meridian Park"
  /\ lat meridian_park = Some 51.48%Q
  /\ lon meridian_park = Some 0%Q
  /\ elem_lon meridian_park = None
  /\ map name (collect grid_km 51.48 0.01 "" [meridian_park; picture_house])
     = ["Picturehouse"]
  /\ get_local_spots geocoder (fun _ _ => Ok [meridian_park; picture_house])
       grid_km "Greenwich" None
     = Return
         (join newline
            [ "Highlighted venues near Greenwich, England, United Kingdom (within ~8 km):";
              "- Picturehouse (Cinema) · 1.0 km away" ]).
Proof.
  repeat split; reflexivity.
Qed.

(** C8.  For a location that is empty or that the geocoder does not resolve,
    both lookups return a message and do not raise.  The weather outlook's
    message asks for a clearer location; the local-spots message only reports
    the failure. *)
Theorem unlocated_messages :
  forall (num : Type) (show_num : num -> string)
         (geocode_api : string -> http (list geo_match))
         (_fetch_forecast : Q -> Q -> string -> string
                            -> http (Weather.forecast num))
         (strptime_ymd : string -> option date)
         (overpass_api : Q -> Q -> http (list element))
         (km : Q -> Q -> Q -> Q -> Q)
         (first_read second_read : datetime) (location : string)
         (target_date interest : option string),
    is_empty location = true \/ unresolvable geocode_api location ->
    Weather.get_weather_outlook show_num geocode_api _fetch_forecast
      strptime_ymd first_read second_read location target_date
    = Return ("Unable to locate coordinates for '" ++ location
              ++ "'. Ask the user for a clearer location.")
    /\ get_local_spots geocode_api overpass_api km location interest
       = Return ("Unable to locate coordinates for '" ++ location ++ "'.").
Proof.
  intros num show_num geocode_api fetch strptime_ymd overpass_api km
    first_read second_read location target_date interest H.
  assert (Hgeo : _lookup_coordinates geocode_api location = Return None).
  { unfold _lookup_coordinates. destruct H as [-> | H]; [reflexivity|].
    unfold unresolvable in H. rewrite H.
    destruct (is_empty location); reflexivity. }
  unfold Weather.get_weather_outlook, get_local_spots. rewrite Hgeo.
  split; reflexivity.
Qed.

(** The two messages for the empty location: only the first one carries the
    request to ask the user. *)
Lemma unlocated_messages_witness :
  Weather.get_weather_outlook show_Z geocoder
    (fun _ _ _ _ => Failed) (fun _ => None)
    {| on := {| year := 2025; month := 6; day := 1 |};
       hour := 9; minute := 30; second := 0; microsecond := 0 |}
    {| on := {| year := 2025; month := 6; day := 1 |};
       hour := 9; minute := 30; second := 1; microsecond := 0 |}
    "" None
  = Return "Unable to locate coordinates for ''. Ask the user for a clearer location."
  /\ get_local_spots geocoder overpass grid_km "" (Some "cricket")
     = Return "Unable to locate coordinates for ''.".
Proof.
  apply (unlocated_messages Z show_Z geocoder (fun _ _ _ _ => Failed)
           (fun _ => None) overpass grid_km _ _ "" None (Some "cricket")).
  left. reflexivity.
Defined.

(** *** Claims about the weather outlook *)

Import Weather.

Lemma at_midpoint_defined {num : Type} (series : list num) :
  series <> [] ->
  exists x, series !! (length series / 2)%nat = Some x
            /\ at_midpoint series = Return x.
Proof.
  intros Hne.
  assert (Hlt : (length series / 2 < length series)%nat).
  { apply Nat.div_lt; [|lia]. destruct series; [congruence | cbn; lia]. }
  apply lookup_lt_is_Some_2 in Hlt. destruct Hlt as [x Hx].
  exists x. split; [exact Hx|]. unfold at_midpoint. rewrite Hx. reflexivity.
Qed.

(** The two midpoint fields never raise: each is the text of the element at
    index floor(length / 2), or "N/A" for an empty series. *)
Lemma midday_temp_cases {num : Type} (show_num : num -> string)
  (series : list num) :
  exists text,
    midday_temp show_num series = Return text
    /\ (series <> [] ->
        exists x, series !! (length series / 2)%nat = Some x
                  /\ text = show_num x ++ "°C")
    /\ (series = [] -> text = "N/A").
Proof.
  destruct series as [|y r].
  - exists "N/A". split; [reflexivity|]. split; [congruence | reflexivity].
  - destruct (at_midpoint_defined (y :: r)) as (x & Hx & Hm); [discriminate|].
    exists (show_num x ++ "°C"). unfold midday_temp. rewrite Hm.
    split; [reflexivity|]. split; [|discriminate].
    intros _. exists x. split; [exact Hx | reflexivity].
Qed.

Lemma humidity_snapshot_cases {num : Type} (show_num : num -> string)
  (series : list num) :
  exists text,
    humidity_snapshot show_num series = Return text
    /\ (series <> [] ->
        exists x, series !! (length series / 2)%nat = Some x
                  /\ text = show_num x ++ "%")
    /\ (series = [] -> text = "N/A").
Proof.
  destruct series as [|y r].
  - exists "N/A". split; [reflexivity|]. split; [congruence | reflexivity].
  - destruct (at_midpoint_defined (y :: r)) as (x & Hx & Hm); [discriminate|].
    exists (show_num x ++ "%"). unfold humidity_snapshot. rewrite Hm.
    split; [reflexivity|]. split; [|discriminate].
    intros _. exists x. split; [exact Hx | reflexivity].
Qed.

(** C5. In the outlook returned for a located place and a fetched forecast,
    the midday temperature and the humidity snapshot are the elements at
    index floor(length / 2) of the hourly temperature series and of the hourly
    humidity series, each read "N/A" when its series is empty, and neither
    makes the lookup fail: the lookup raises only what the hourly
    precipitation maximum raises, and otherwise returns the six lines of the
    report with the two fields in their places. *)
Theorem midpoint_selection :
  forall (num : Type) (show_num : num -> string)
         (geocode_api : string -> http (list geo_match))
         (_fetch_forecast : Q -> Q -> string -> string -> http (forecast num))
         (strptime_ymd : string -> option date)
         (first_read second_read : datetime) (location : string)
         (target_date : option string)
         (la lo : Q) (pretty_label day_str : string) (fc : forecast num),
    _lookup_coordinates geocode_api location
    = Return (Some (la, lo, pretty_label)) ->
    day_str = isoformat (resolve_day strptime_ymd first_read target_date) ->
    _fetch_forecast la lo day_str day_str = Ok fc ->
    exists midday humidity : string,
      (temperature_2m (hourly fc) <> [] ->
       exists x,
         temperature_2m (hourly fc)
           !! (length (temperature_2m (hourly fc)) / 2)%nat = Some x
         /\ midday = show_num x ++ "°C")
      /\ (temperature_2m (hourly fc) = [] -> midday = "N/A")
      /\ (relative_humidity_2m (hourly fc) <> [] ->
          exists x,
            relative_humidity_2m (hourly fc)
              !! (length (relative_humidity_2m (hourly fc)) / 2)%nat = Some x
            /\ humidity = show_num x ++ "%")
      /\ (relative_humidity_2m (hourly fc) = [] -> humidity = "N/A")
      /\ (forall e,
            precip_risk (precipitation_probability (hourly fc)) = Raise e ->
            get_weather_outlook show_num geocode_api _fetch_forecast
              strptime_ymd first_read second_read location target_date
            = Raise e)
      /\ (forall risk,
            precip_risk (precipitation_probability (hourly fc)) = Return risk ->
            get_weather_outlook show_num geocode_api _fetch_forecast
              strptime_ymd first_read second_read location target_date
            = Return
                (join newline
                   [ "Weather outlook for " ++ pretty_label ++ " on "
                       ++ day_str ++ " (generated "
                       ++ strftime_minutes second_read ++ "):";
                     "- Daily range: "
                       ++ _pick show_num (temperature_2m_min (daily fc))
                       ++ "°C – "
                       ++ _pick show_num (temperature_2m_max (daily fc))
                       ++ "°C (midday ~ " ++ midday ++ ")";
                     "- Humidity snapshot: " ++ humidity;
                     "- Peak precipitation probability: "
                       ++ _pick show_entry
                            (precipitation_probability_max (daily fc))
                       ++ "% (hourly max " ++ risk ++ ")";
                     "- Sunrise at " ++ _pick id (sunrise (daily fc))
                       ++ ", sunset at " ++ _pick id (sunset (daily fc));
                     "- Tip: favor indoor plans if precipitation exceeds 40% or humidity stays above 80%." ])).
Proof.
  intros num show_num geocode_api fetch strptime_ymd first_read second_read
    location target_date la lo pretty_label day_str fc Hgeo Hday Hfetch.
  destruct (midday_temp_cases show_num (temperature_2m (hourly fc)))
    as (midday & Hm & Hm1 & Hm0).
  destruct (humidity_snapshot_cases show_num (relative_humidity_2m (hourly fc)))
    as (humidity & Hh & Hh1 & Hh0).
  exists midday, humidity.
  split; [exact Hm1|]. split; [exact Hm0|].
  split; [exact Hh1|]. split; [exact Hh0|].
  subst day_str.
  split; intros r Hr; unfold get_weather_outlook;
    rewrite Hgeo, Hfetch, Hr; [reflexivity|].
  rewrite Hh, Hm. reflexivity.
Qed.

(** The outlook for the sample forecast in Hyderabad: three temperatures, of
    which the one at index 1 is shown, and four humidities, of which the one
    at index 2 is. *)
Lemma midpoint_selection_witness :
  exists midday humidity : string,
    midday = "31°C" /\ humidity = "62%"
    /\ get_weather_outlook show_Z geocoder (fun _ _ _ _ => Ok sample_forecast)
         (fun _ => None) morning morning "Hyderabad" None
       = Return
           (join newline
              [ "Weather outlook for Hyderabad, Telangana, India on 2025-06-01 (generated 2025-06-01 09:30 UTC):";
                "- Daily range: 24°C – 34°C (midday ~ " ++ midday ++ ")";
                "- Humidity snapshot: " ++ humidity;
                "- Peak precipitation probability: 35% (hourly max 90%)";
                "- Sunrise at 2025-06-01T05:41, sunset at 2025-06-01T18:47";
                "- Tip: favor indoor plans if precipitation exceeds 40% or humidity stays above 80%." ]).
Proof.
  destruct (midpoint_selection Z show_Z geocoder
              (fun _ _ _ _ => Ok sample_forecast) (fun _ => None)
              morning morning "Hyderabad" None 17 78
              "Hyderabad, Telangana, India" "2025-06-01" sample_forecast
              eq_refl eq_refl eq_refl)
    as (midday & humidity & Hm & _ & Hh & _ & _ & Hout).
  exists midday, humidity.
  destruct Hm as (x & Hx & ->); [discriminate|].
  destruct Hh as (y & Hy & ->); [discriminate|].
  injection Hx as <-. injection Hy as <-.
  split; [reflexivity|]. split; [reflexivity|].
  apply (Hout "90%"). reflexivity.
Defined.

(** On a series of numbers the running maximum ends as the greatest of
    them. *)
Lemma max_from_numbers (cur : Z) (values : list Z) :
  exists m,
    max_from (Some cur) (map Some values) = Return (Some m)
    /\ In m (cur :: values)
    /\ Forall (fun x => (x <= m)%Z) (cur :: values).
Proof.
  revert cur. induction values as [|x r IH]; intros cur; cbn [max_from map].
  - exists cur. split; [reflexivity|]. split; [left; reflexivity|].
    repeat constructor. lia.
  - destruct (Z.ltb_spec cur x) as [Hlt | Hge].
    + destruct (IH x) as (m & Hm & Hin & Hall).
      exists m. split; [exact Hm|].
      apply Forall_cons in Hall. destruct Hall as [Hx Hr].
      split; [right; exact Hin|].
      repeat (apply Forall_cons; split); try assumption; lia.
    + destruct (IH cur) as (m & Hm & Hin & Hall).
      exists m. split; [exact Hm|].
      apply Forall_cons in Hall. destruct Hall as [Hc Hr].
      split; [destruct Hin as [<- | Hin]; [left; reflexivity | right; right; exact Hin]|].
      repeat (apply Forall_cons; split); try assumption; lia.
Qed.

(** C6, as the code has it. In the outlook returned for a located place and a
    fetched forecast whose hourly precipitation series is non-empty and holds
    numbers only, the hourly peak shown is the maximum of that series,
    whatever the daily maximum field holds; the daily value is shown next to
    it.  The series [10, 90, 20] gives "90%". *)
Theorem hourly_peak :
  forall (num : Type) (show_num : num -> string)
         (geocode_api : string -> http (list geo_match))
         (_fetch_forecast : Q -> Q -> string -> string -> http (forecast num))
         (strptime_ymd : string -> option date)
         (first_read second_read : datetime) (location : string)
         (target_date : option string)
         (la lo : Q) (pretty_label day_str : string) (fc : forecast num)
         (values : list Z),
    _lookup_coordinates geocode_api location
    = Return (Some (la, lo, pretty_label)) ->
    day_str = isoformat (resolve_day strptime_ymd first_read target_date) ->
    _fetch_forecast la lo day_str day_str = Ok fc ->
    precipitation_probability (hourly fc) = map Some values ->
    values <> [] ->
    exists (m : Z) (midday humidity : string),
      In m values
      /\ Forall (fun x => (x <= m)%Z) values
      /\ (values = [10; 90; 20]%Z -> show_Z m ++ "%" = "90%")
      /\ get_weather_outlook show_num geocode_api _fetch_forecast
           strptime_ymd first_read second_read location target_date
         = Return
             (join newline
                [ "Weather outlook for " ++ pretty_label ++ " on "
                    ++ day_str ++ " (generated "
                    ++ strftime_minutes second_read ++ "):";
                  "- Daily range: "
                    ++ _pick show_num (temperature_2m_min (daily fc))
                    ++ "°C – "
                    ++ _pick show_num (temperature_2m_max (daily fc))
                    ++ "°C (midday ~ " ++ midday ++ ")";
                  "- Humidity snapshot: " ++ humidity;
                  "- Peak precipitation probability: "
                    ++ _pick show_entry
                         (precipitation_probability_max (daily fc))
                    ++ "% (hourly max " ++ (show_Z m ++ "%") ++ ")";
                  "- Sunrise at " ++ _pick id (sunrise (daily fc))
                    ++ ", sunset at " ++ _pick id (sunset (daily fc));
                  "- Tip: favor indoor plans if precipitation exceeds 40% or humidity stays above 80%." ]).
Proof.
  intros num show_num geocode_api fetch strptime_ymd first_read second_read
    location target_date la lo pretty_label day_str fc values
    Hgeo Hday Hfetch Hvals Hne.
  destruct values as [|v rest]; [congruence|].
  destruct (max_from_numbers v rest) as (m & Hmax & Hin & Hall).
  destruct (midday_temp_cases show_num (temperature_2m (hourly fc)))
    as (midday & Hm & _).
  destruct (humidity_snapshot_cases show_num (relative_humidity_2m (hourly fc)))
    as (humidity & Hh & _).
  exists m, midday, humidity.
  split; [exact Hin|]. split; [exact Hall|]. split.
  - intros [= -> ->]. cbn in Hmax. injection Hmax as <-. reflexivity.
  - subst day_str. unfold get_weather_outlook, precip_risk.
    rewrite Hgeo, Hfetch, Hvals. cbn [map]. rewrite Hmax, Hh, Hm.
    reflexivity.
Qed.

(** The sample forecast: hourly peak 90 next to a daily maximum of 35. *)
Lemma hourly_peak_witness :
  exists (m : Z) (midday humidity : string),
    In m [10; 90; 20]%Z
    /\ Forall (fun x => (x <= m)%Z) [10; 90; 20]%Z
    /\ show_Z m ++ "%" = "90%"
    /\ get_weather_outlook show_Z geocoder (fun _ _ _ _ => Ok sample_forecast)
         (fun _ => None) morning morning "Hyderabad" None
       = Return
           (join newline
              [ "Weather outlook for Hyderabad, Telangana, India on 2025-06-01 (generated 2025-06-01 09:30 UTC):";
                "- Daily range: 24°C – 34°C (midday ~ " ++ midday ++ ")";
                "- Humidity snapshot: " ++ humidity;
                "- Peak precipitation probability: 35% (hourly max "
                  ++ (show_Z m ++ "%") ++ ")";
                "- Sunrise at 2025-06-01T05:41, sunset at 2025-06-01T18:47";
                "- Tip: favor indoor plans if precipitation exceeds 40% or humidity stays above 80%." ]).
Proof.
  destruct (hourly_peak Z show_Z geocoder
              (fun _ _ _ _ => Ok sample_forecast) (fun _ => None)
              morning morning "Hyderabad" None 17 78
              "Hyderabad, Telangana, India" "2025-06-01" sample_forecast
              [10; 90; 20]%Z eq_refl eq_refl eq_refl eq_refl)
    as (m & midday & humidity & Hin & Hall & Hex & Hout);
    [discriminate|].
  exists m, midday, humidity.
  split; [exact Hin|]. split; [exact Hall|].
  split; [exact (Hex eq_refl) | exact Hout].
Defined.

(** C6 as stated fails on a series with a gap: the forecast service sends
    [null] for an hour without data, and on [10, null, 20] the maximum, and
    with it the whole lookup, raises [TypeError]. *)
Lemma hourly_peak_gap_raises :
  precipitation_probability (hourly gappy_forecast)
  = [Some 10%Z; None; Some 20%Z]
  /\ get_weather_outlook show_Z geocoder (fun _ _ _ _ => Ok gappy_forecast)
       (fun _ => None) morning morning "Hyderabad" None
     = Raise TypeError.
Proof.
  split; reflexivity.
Qed.

(** The outlook for the sample forecast, written out. *)
Example hyderabad_outlook :
  get_weather_outlook show_Z geocoder (fun _ _ _ _ => Ok sample_forecast)
    (fun _ => None) morning morning "Hyderabad" None
  = Return
      (join newline
         [ "Weather outlook for Hyderabad, Telangana, India on 2025-06-01 (generated 2025-06-01 09:30 UTC):";
           "- Daily range: 24°C – 34°C (midday ~ 31°C)";
           "- Humidity snapshot: 62%";
           "- Peak precipitation probability: 35% (hourly max 90%)";
           "- Sunrise at 2025-06-01T05:41, sunset at 2025-06-01T18:47";
           "- Tip: favor indoor plans if precipitation exceeds 40% or humidity stays above 80%." ]).
Proof. reflexivity. Qed.

(** The same lookup with the first clock read just before midnight and the
    second just after: the day of the report is the earlier one. *)
Example outlook_across_midnight :
  exists rest,
    get_weather_outlook show_Z geocoder (fun _ _ _ _ => Ok sample_forecast)
      (fun _ => None) midnight_before
      {| on := june_1; hour := 0; minute := 0; second := 0;
         microsecond := 1000 |}
      "Hyderabad" None
    = Return
        ("Weather outlook for Hyderabad, Telangana, India on 2025-05-31 (generated 2025-06-01 00:00 UTC):"
         ++ rest).
Proof. eexists. reflexivity. Qed.

(** *** The news filter *)

Import News.

Lemma date_eqb_eq (a b : date) : date_eqb a b = true <-> a = b.
Proof.
  unfold date_eqb. rewrite !andb_true_iff, !Z.eqb_eq.
  destruct a, b; cbn. split.
  - intros [[-> ->] ->]. reflexivity.
  - intros [= -> -> ->]. auto.
Qed.

Section FilterFacts.

Variable parse_pub_date : string -> option datetime.
Variables (target_day : date) (kws : list string).

Lemma wrong_day_date_ok (item : news_item) :
  wrong_day parse_pub_date target_day item
  = negb (date_ok parse_pub_date target_day item).
Proof.
  unfold wrong_day, date_ok.
  destruct (is_empty (pub_date_of item));
    destruct (parse_pub_date (pub_date_of item)); cbn; reflexivity.
Qed.

Lemma off_topic_keyword_ok (item : news_item) :
  off_topic kws item = negb (keyword_ok kws item).
Proof.
  unfold off_topic, keyword_ok. destruct kws; reflexivity.
Qed.

Lemma filter_kept (items : list news_item) :
  List.filter (keyword_ok kws)
    (List.filter (date_ok parse_pub_date target_day) items)
  = List.filter (kept parse_pub_date target_day kws) items.
Proof.
  induction items as [|item rest IH]; [reflexivity|].
  unfold kept in *. cbn [List.filter].
  destruct (date_ok parse_pub_date target_day item); cbn [andb List.filter];
    [|exact IH].
  destruct (keyword_ok kws item); rewrite IH; reflexivity.
Qed.

(** The loop with [filtered] holding fewer than five lines: it appends the
    lines of the kept items until five are reached. *)
Lemma news_loop_from (now : datetime) (items : list news_item) :
  forall filtered : list string,
    (length filtered < 5)%nat ->
    news_loop parse_pub_date now target_day kws items filtered
    = (filtered
       ++ map (entry parse_pub_date now)
            (take (5 - length filtered)
               (List.filter (kept parse_pub_date target_day kws) items)))%list.
Proof.
  induction items as [|item rest IH]; intros filtered Hlen.
  - cbn. rewrite take_nil, app_nil_r. reflexivity.
  - cbn [news_loop List.filter]. unfold kept at 1.
    rewrite wrong_day_date_ok, off_topic_keyword_ok.
    destruct (date_ok parse_pub_date target_day item); cbn [negb andb];
      [|apply IH, Hlen].
    destruct (keyword_ok kws item); cbn [negb]; [|apply IH, Hlen].
    rewrite length_app. cbn [length].
    destruct (Nat.eqb_spec (length filtered + 1) 5) as [E | E].
    + replace (5 - length filtered)%nat with 1%nat by lia.
      cbn [take firstn map]. rewrite take_0. reflexivity.
    + rewrite IH by (rewrite length_app; cbn; lia).
      rewrite length_app. cbn [length].
      replace (5 - length filtered)%nat
        with (S (5 - (length filtered + 1)))%nat by lia.
      cbn [take firstn map]. rewrite <- app_assoc. reflexivity.
Qed.

(** The loop computes the lines of the selected items. *)
Lemma news_loop_select (now : datetime) (items : list news_item) :
  news_loop parse_pub_date now target_day kws items []
  = map (entry parse_pub_date now)
      (select parse_pub_date target_day kws items).
Proof.
  rewrite news_loop_from by (cbn; lia).
  unfold select. rewrite filter_kept. reflexivity.
Qed.

Lemma select_kept (items : list news_item) (item : news_item) :
  In item (select parse_pub_date target_day kws items) ->
  In item items
  /\ date_ok parse_pub_date target_day item = true
  /\ keyword_ok kws item = true.
Proof.
  unfold select. intros H.
  apply in_take, filter_In in H. rename H into Hi.
  destruct Hi as [Hi Hk].
  apply filter_In in Hi. tauto.
Qed.

Lemma filter_all {A : Type} (p : A -> bool) (l : list A) :
  (forall x, In x l -> p x = true) -> List.filter p l = l.
Proof.
  induction l as [|x r IH]; intros H; [reflexivity|].
  cbn [List.filter]. rewrite (H x) by (left; reflexivity).
  rewrite IH; [reflexivity|]. intros y Hy. apply H. right. exact Hy.
Qed.

(** Selecting from a selection changes nothing. *)
Lemma select_idempotent (items : list news_item) :
  select parse_pub_date target_day kws
    (select parse_pub_date target_day kws items)
  = select parse_pub_date target_day kws items.
Proof.
  assert (Hd : forall x,
             In x (select parse_pub_date target_day kws items) ->
             date_ok parse_pub_date target_day x = true)
    by (intros x Hx; apply select_kept in Hx; tauto).
  assert (Hk : forall x,
             In x (select parse_pub_date target_day kws items) ->
             keyword_ok kws x = true)
    by (intros x Hx; apply select_kept in Hx; tauto).
  unfold select at 1.
  rewrite (filter_all _ _ Hd), (filter_all _ _ Hk).
  unfold select. rewrite take_take. reflexivity.
Qed.

End FilterFacts.

(** *** The keyword list *)

Lemma lower_char_idempotent (c : ascii) :
  lower_char (lower_char c) = lower_char c.
Proof.
  destruct c as [[] [] [] [] [] [] [] []]; reflexivity.
Qed.

Lemma lower_idempotent (s : string) : lower (lower s) = lower s.
Proof.
  induction s as [|c r IH]; [reflexivity|].
  cbn [lower]. rewrite lower_char_idempotent, IH. reflexivity.
Qed.

Lemma lower_is_empty (s : string) : is_empty (lower s) = is_empty s.
Proof. destruct s; reflexivity. Qed.

Lemma append_assoc (a b c : string) : (a ++ b) ++ c = a ++ (b ++ c).
Proof.
  induction a as [|x a IH]; [reflexivity|].
  change (String x ((a ++ b) ++ c) = String x (a ++ (b ++ c))).
  f_equal. exact IH.
Qed.

Lemma append_empty_r (a : string) : a ++ "" = a.
Proof.
  induction a as [|x a IH]; [reflexivity|].
  change (String x (a ++ "") = String x a). f_equal. exact IH.
Qed.

Lemma split_from_cons (tok s : string) :
  exists t rest, split_from tok s = t :: rest.
Proof.
  revert tok. induction s as [|c r IH]; intros tok; cbn [split_from].
  - eauto.
  - destruct (Ascii.eqb c ","); eauto.
Qed.

(** Splitting at the commas loses nothing: joining the tokens with commas
    gives the text back. *)
Lemma split_from_join (tok s : string) :
  join "," (split_from tok s) = tok ++ s.
Proof.
  revert tok. induction s as [|c r IH]; intros tok; cbn [split_from].
  - cbn. rewrite append_empty_r. reflexivity.
  - destruct (Ascii.eqb_spec c ",") as [-> | Hc].
    + destruct (split_from_cons "" r) as (t & rest & E).
      pose proof (IH "") as IH0. rewrite E in IH0 |- *.
      change (join "," (tok :: t :: rest))
        with (tok ++ "," ++ join "," (t :: rest)).
      rewrite IH0. reflexivity.
    + rewrite IH, append_assoc. reflexivity.
Qed.

Lemma split_comma_join (s : string) : join "," (split_comma s) = s.
Proof. apply split_from_join. Qed.

(** What the keyword list holds: the tokens between the commas that are not
    blank, each trimmed and lower-cased. *)
Lemma keywords_spec (interests : option string) (k : string) :
  In k (keywords interests)
  <-> exists token,
        In token (split_comma (default "" interests))
        /\ is_empty (strip token) = false
        /\ k = lower (strip token).
Proof.
  unfold keywords. rewrite in_map_iff. split.
  - intros (token & <- & H). apply filter_In in H. destruct H as [H E].
    apply negb_true_iff in E. eauto.
  - intros (token & H & E & ->). exists token. split; [reflexivity|].
    apply filter_In. rewrite E. tauto.
Qed.

Lemma keywords_clean (interests : option string) (k : string) :
  In k (keywords interests) -> is_empty k = false /\ lower k = k.
Proof.
  intros H. apply keywords_spec in H. destruct H as (token & _ & E & ->).
  rewrite lower_is_empty, lower_idempotent. tauto.
Qed.

(** *** Claims about the city news *)

(** C4. The loop keeps, in feed order, the items that pass the date test and
    then the keyword test, and stops at five.  The date test rejects exactly
    the items whose publish date parses to a day other than the target day,
    whatever their title; items without a parseable date pass.  The keyword
    test, when there are keywords (the non-blank comma-separated tokens,
    trimmed and lower-cased), passes the items whose lower-cased title or
    description contains one of them. *)
Theorem news_filter_order :
  forall (parse_pub_date : string -> option datetime) (now : datetime)
         (target_day : date) (interests : option string)
         (items : list news_item),
    let kws := keywords interests in
    let chosen := select parse_pub_date target_day kws items in
    news_loop parse_pub_date now target_day kws items []
    = map (entry parse_pub_date now) chosen
    /\ chosen
       = take 5 (List.filter (keyword_ok kws)
                   (List.filter (date_ok parse_pub_date target_day) items))
    /\ (length chosen <= 5)%nat
    /\ (forall item,
          date_ok parse_pub_date target_day item = false
          <-> exists published,
                is_empty (pub_date_of item) = false
                /\ parse_pub_date (pub_date_of item) = Some published
                /\ on published <> target_day)
    /\ (forall item,
          In item items ->
          date_ok parse_pub_date target_day item = false ->
          ~ In item chosen)
    /\ (forall item,
          keyword_ok kws item = true
          <-> kws = []
              \/ exists k,
                   In k kws
                   /\ (contains k (lower (title_of item)) = true
                       \/ contains k (lower (description_of item)) = true))
    /\ (forall k,
          In k kws
          <-> exists token,
                In token (split_comma (default "" interests))
                /\ is_empty (strip token) = false
                /\ k = lower (strip token)).
Proof.
  intros parse_pub_date now target_day interests items kws chosen.
  split; [apply news_loop_select|].
  split; [reflexivity|].
  split; [unfold chosen, select; rewrite length_take; lia|].
  split.
  { intros item. unfold date_ok.
    destruct (parse_pub_date (pub_date_of item)) as [published|].
    - rewrite orb_false_iff. split.
      + intros [He Hd]. exists published. split; [exact He|].
        split; [reflexivity|]. intros Heq. apply date_eqb_eq in Heq. congruence.
      + intros (p & He & [= <-] & Hd). split; [exact He|].
        destruct (date_eqb (on published) target_day) eqn:E; [|reflexivity].
        apply date_eqb_eq in E. contradiction.
    - split; [discriminate|]. intros (p & _ & H & _). discriminate. }
  split.
  { intros item _ Hd Hin. apply select_kept in Hin. destruct Hin as (_ & H & _).
    congruence. }
  split.
  { intros item. unfold keyword_ok. destruct kws as [|k0 ks] eqn:Ek.
    - split; [left; reflexivity | reflexivity].
    - rewrite existsb_exists. split.
      + intros (k & Hk & Hc). right. exists k. split; [exact Hk|].
        apply orb_true_iff, Hc.
      + intros [H | (k & Hk & Hc)]; [discriminate|].
        exists k. split; [exact Hk|]. apply orb_true_iff, Hc. }
  intros k. apply keywords_spec.
Qed.

(** The sample feed on 1 June with the interests "Cricket, final ,,": the
    item of 31 May is left out although its title holds both keywords. *)
Lemma news_filter_order_witness :
  keywords (Some "Cricket, final ,,") = ["cricket"; "final"]
  /\ contains "cricket" (lower (title_of stale_report)) = true
  /\ contains "final" (lower (title_of stale_report)) = true
  /\ news_loop feed_dates morning june_1 (keywords (Some "Cricket, final ,,"))
       sample_feed []
     = [ "- Cricket final at Uppal (Deccan Daily, 1h ago)" ++ newline
         ++ "  https://news.example/final" ].
Proof.
  split; [reflexivity|]. split; [reflexivity|]. split; [reflexivity|].
  rewrite (proj1 (news_filter_order feed_dates morning june_1
                    (Some "Cricket, final ,,") sample_feed)).
  reflexivity.
Defined.

(** C7. When no item survives the filter, the lookup returns a message, not
    an exception: the notice that no date-matching headlines were found for
    the location on the target day, followed by the titles of the first
    three items of the unfiltered list (or "N/A" when the list is empty). *)
Theorem news_fallback :
  forall (news_api : string -> http string)
         (parse_feed : string -> option (list news_item))
         (parse_pub_date : string -> option datetime)
         (strptime_ymd : string -> option date)
         (now : datetime) (location : string)
         (target_date interests : option string)
         (text : string) (items : list news_item),
    is_empty location = false ->
    news_api location = Ok text ->
    parse_feed text = Some items ->
    select parse_pub_date (resolve_day strptime_ymd now target_date)
      (keywords interests) items = [] ->
    exists fallback : list string,
      fallback = map title_of (take 3 items)
      /\ (length fallback <= 3)%nat
      /\ (forall t, In t fallback ->
                    exists item, In item items /\ t = title_of item)
      /\ get_city_news news_api parse_feed parse_pub_date strptime_ymd now
           location target_date interests
         = Return
             ("No date-matching headlines found for " ++ location ++ " on "
              ++ isoformat (resolve_day strptime_ymd now target_date) ++ "."
              ++ newline ++ "Sample current stories: "
              ++ match fallback with
                 | [] => "N/A"
                 | _ :: _ => join ", " fallback
                 end
              ++ ".").
Proof.
  intros news_api parse_feed parse_pub_date strptime_ymd now location
    target_date interests text items Hloc Hapi Hfeed Hnone.
  exists (map title_of (take 3 items)).
  split; [reflexivity|].
  split; [rewrite length_map, length_take; lia|].
  split.
  - intros t Ht. apply in_map_iff in Ht. destruct Ht as (item & <- & Hin).
    exists item. split; [|reflexivity].
    apply in_take in Hin. exact Hin.
  - unfold get_city_news. rewrite Hloc, Hapi, Hfeed.
    rewrite news_loop_select, Hnone. reflexivity.
Qed.

(** The sample feed on 2 June with the interest "cricket": nothing survives,
    and the three titles of the feed are named. *)
Lemma news_fallback_witness :
  get_city_news (fun _ => Ok "<rss/>") (fun _ => Some sample_feed)
    feed_dates iso_dates morning "Hyderabad" (Some "2025-06-02")
    (Some "cricket")
  = Return
      ("No date-matching headlines found for Hyderabad on 2025-06-02."
       ++ newline
       ++ "Sample current stories: Cricket fans gather for the final, "
       ++ "Cricket final at Uppal, Food festival opens.").
Proof.
  destruct (news_fallback (fun _ => Ok "<rss/>") (fun _ => Some sample_feed)
              feed_dates iso_dates morning "Hyderabad" (Some "2025-06-02")
              (Some "cricket") "<rss/>" sample_feed
              eq_refl eq_refl eq_refl eq_refl)
    as (fallback & -> & _ & _ & H).
  exact H.
Defined.

(** C9, as the code has it.  Which items survive, and in which order, is
    fixed by the item list, the target day and the keywords: two runs select
    the same items, selecting again from the selection changes nothing, and
    the lines of a run are the lines of the selected items written at the
    time of that run.  Two runs give the same lines whenever the age written
    for every selected item is the same at both times. *)
Theorem news_selection_repeatable :
  forall (parse_pub_date : string -> option datetime)
         (target_day : date) (kws : list string) (items : list news_item),
    let chosen := select parse_pub_date target_day kws items in
    (forall now : datetime,
        news_loop parse_pub_date now target_day kws items []
        = map (entry parse_pub_date now) chosen)
    /\ select parse_pub_date target_day kws chosen = chosen
    /\ (forall now1 now2 : datetime,
          (forall item,
              In item chosen ->
              _format_news_age parse_pub_date now1 (pub_date_of item)
              = _format_news_age parse_pub_date now2 (pub_date_of item)) ->
          news_loop parse_pub_date now1 target_day kws items []
          = news_loop parse_pub_date now2 target_day kws items []).
Proof.
  intros parse_pub_date target_day kws items chosen.
  split; [intro now; apply news_loop_select|].
  split; [apply select_idempotent|].
  intros now1 now2 Hage. rewrite !news_loop_select. fold chosen.
  apply map_ext_in. intros item Hin. unfold entry.
  rewrite (Hage item Hin). reflexivity.
Qed.

(** Two runs over the sample feed a quarter of an hour apart: every age is
    the same at both times, and so are the lines. *)
Lemma news_selection_repeatable_witness :
  news_loop feed_dates morning june_1 [] sample_feed []
  = news_loop feed_dates late_morning june_1 [] sample_feed [].
Proof.
  apply (proj2 (proj2 (news_selection_repeatable feed_dates june_1 []
                         sample_feed)) morning late_morning).
  intros item Hin. vm_compute in Hin.
  destruct Hin as [<- | [<- | []]]; reflexivity.
Defined.

(** C9 as stated fails when the clock moves between the two runs: the same
    feed, day and keywords give "1h ago" in the morning and "12h ago" in the
    evening. *)
Lemma news_lines_follow_the_clock :
  (news_loop feed_dates morning june_1 ["cricket"] sample_feed []
   = [ "- Cricket final at Uppal (Deccan Daily, 1h ago)" ++ newline
       ++ "  https://news.example/final" ]
   /\ news_loop feed_dates evening june_1 ["cricket"] sample_feed []
      = [ "- Cricket final at Uppal (Deccan Daily, 12h ago)" ++ newline
          ++ "  https://news.example/final" ])
  /\ news_loop feed_dates morning june_1 ["cricket"] sample_feed []
     <> news_loop feed_dates evening june_1 ["cricket"] sample_feed [].
Proof.
  split; [split; reflexivity|]. vm_compute. discriminate.
Qed.

(** *** The entry guard of the workflow *)

Import Workflow Notions.

(** Unfolds the steps of the workflow and splits on the outcome of each task
    in turn. *)
Ltac run_tasks kickoff :=
  cbv [_run_single_task _notify bind emit ret lift];
  repeat match goal with
         | |- context [kickoff ?r ?d ?x] =>
             let out := fresh "out" in
             let E := fresh "E" in
             destruct (kickoff r d x) as [out | out] eqn:E
         end.

(** C10. [plan_day_workflow] raises [ValueError] when the user data has no
    non-empty "location" or when the plan date is empty, and it does so
    before anything else happens: no model is built, no agent is created, no
    task is run, and the event log is as it was.  With both present the first
    thing it does is build the model, and when every task returns it returns
    a result for the plan date. *)
Theorem workflow_guard :
  forall (kickoff : string -> string -> string -> outcome string)
         (progress : bool)
         (user_data : list (string * string)) (plan_date : string)
         (commitments adjustments : option string) (log : list event),
    (str_truthy (dict_get user_data "location") = false ->
     plan_day_workflow kickoff progress user_data plan_date commitments
       adjustments log
     = (Raise (ValueError "Location is required to generate the day plan."),
        log))
    /\ (str_truthy (dict_get user_data "location") = true ->
        is_empty plan_date = true ->
        plan_day_workflow kickoff progress user_data plan_date commitments
          adjustments log
        = (Raise (ValueError "Plan date is required."), log))
    /\ (str_truthy (dict_get user_data "location") = true ->
        is_empty plan_date = false ->
        exists (out : outcome plan_result) (events : list event),
          plan_day_workflow kickoff progress user_data plan_date commitments
            adjustments log
          = (out, (log ++ LlmBuilt :: events)%list)
          /\ (tasks_return kickoff ->
              exists result : plan_result,
                out = Return result /\ date result = plan_date)).
Proof.
  intros kickoff progress user_data plan_date commitments adjustments log.
  unfold plan_day_workflow. split; [|split].
  - intros ->. reflexivity.
  - intros -> ->. reflexivity.
  - intros -> ->. cbn [negb].
    destruct progress; run_tasks kickoff;
      rewrite <- ?app_assoc; cbn [app];
      (eexists; eexists; split; [reflexivity|]);
      intros Hret;
      try (eexists; split; reflexivity);
      exfalso;
      match goal with
      | E : kickoff ?r ?d ?x = Raise _ |- _ =>
          destruct (Hret r d x) as [text Ht]; congruence
      end.
Qed.

(** The guard at work: no location, then no date. *)
Lemma workflow_guard_witness :
  plan_day_workflow (fun _ _ _ => Return "ok") true [("name", "Asha")]
    "2025-06-01" None None []
  = (Raise (ValueError "Location is required to generate the day plan."), [])
  /\ plan_day_workflow (fun _ _ _ => Return "ok") true
       [("location", "Hyderabad")] "" None None []
     = (Raise (ValueError "Plan date is required."), []).
Proof.
  split.
  - apply (proj1 (workflow_guard (fun _ _ _ => Return "ok") true
                    [("name", "Asha")] "2025-06-01" None None [])).
    reflexivity.
  - apply (proj1 (proj2 (workflow_guard (fun _ _ _ => Return "ok") true
                           [("location", "Hyderabad")] "" None None [])));
      reflexivity.
Defined.

(** * Further properties of the code *)

(** *** The tag table *)

Lemma scan_tags_label (table : list (string * string * string))
  (tgs : gmap string string) (lbl : string) :
  scan_tags table tgs = Some lbl ->
  exists key value, In (key, value, lbl) table /\ tgs !! key = Some value.
Proof.
  induction table as [|[[k v] l] rest IH]; cbn [scan_tags]; [discriminate|].
  destruct (bool_decide (tgs !! k = Some v)) eqn:E.
  - intros [= <-]. apply bool_decide_eq_true in E.
    exists k, v. split; [left; reflexivity | exact E].
  - intros H. destruct (IH H) as (key & value & Hin & Hl).
    exists key, value. split; [right; exact Hin | exact Hl].
Qed.

Lemma scan_tags_match (table : list (string * string * string))
  (tgs : gmap string string) (key value lbl : string) :
  In (key, value, lbl) table -> tgs !! key = Some value ->
  exists lbl', scan_tags table tgs = Some lbl'.
Proof.
  induction table as [|[[k v] l] rest IH]; cbn [scan_tags]; [intros []|].
  intros [[= -> -> ->] | Hin] Ht.
  - rewrite (bool_decide_eq_true_2 _ Ht). eauto.
  - destruct (bool_decide (tgs !! k = Some v)); eauto.
Qed.

Lemma scan_tags_first (pre post : list (string * string * string))
  (tgs : gmap string string) (key value lbl : string) :
  (forall k v l, In (k, v, l) pre -> tgs !! k <> Some v) ->
  tgs !! key = Some value ->
  scan_tags (pre ++ (key, value, lbl) :: post) tgs = Some lbl.
Proof.
  intros Hpre Ht. induction pre as [|[[k v] l] pre IH]; cbn [app scan_tags].
  - rewrite (bool_decide_eq_true_2 _ Ht). reflexivity.
  - rewrite bool_decide_eq_false_2
      by (apply (Hpre k v l); left; reflexivity).
    apply IH. intros k' v' l' Hin. apply (Hpre k' v' l'). right. exact Hin.
Qed.

Ltac no_earlier_row :=
  let k := fresh "k" in
  let v := fresh "v" in
  let l := fresh "l" in
  let Hin := fresh "Hin" in
  intros k v l Hin; cbn [In] in Hin;
  repeat (destruct Hin as [Hin | Hin];
          [injection Hin as <- <- <-; congruence|]);
  destruct Hin.

(** X2.  The label is that of the first row of the table, in the order of
    the table, that the tags match: a row wins when the tags carry its pair
    and no row before it matches.  So a stadium is a Stadium whatever else it
    is tagged, a park that is neither a cinema, a theatre nor a mall is a
    Park even when it is an attraction too, and a restaurant that is an
    attraction is an Attraction.  Whatever the tags are, the label is not
    empty. *)
Theorem tag_label_from_table :
  forall tgs : gmap string string,
    is_empty (_tag_label tgs) = false
    /\ (forall pre key value lbl post,
          POI_TAGS = (pre ++ (key, value, lbl) :: post)%list ->
          tgs !! key = Some value ->
          (forall k v l, In (k, v, l) pre -> tgs !! k <> Some v) ->
          _tag_label tgs = lbl)
    /\ (tgs !! "leisure" = Some "stadium" -> _tag_label tgs = "Stadium")
    /\ (tgs !! "leisure" = Some "park" ->
        tgs !! "amenity" <> Some "cinema" ->
        tgs !! "amenity" <> Some "theatre" ->
        tgs !! "shop" <> Some "mall" ->
        _tag_label tgs = "Park")
    /\ (tgs !! "tourism" = Some "attraction" ->
        tgs !! "amenity" = Some "restaurant" ->
        tgs !! "leisure" = None ->
        tgs !! "shop" = None ->
        _tag_label tgs = "Attraction").
Proof.
  intros tgs.
  assert (Hfirst : forall pre key value lbl post,
             POI_TAGS = (pre ++ (key, value, lbl) :: post)%list ->
             tgs !! key = Some value ->
             (forall k v l, In (k, v, l) pre -> tgs !! k <> Some v) ->
             _tag_label tgs = lbl).
  { intros pre key value lbl post Htable Ht Hpre.
    unfold _tag_label. rewrite Htable.
    rewrite (scan_tags_first pre post tgs key value lbl Hpre Ht).
    reflexivity. }
  split; [|split; [exact Hfirst|split; [|split]]].
  - unfold _tag_label.
    destruct (scan_tags POI_TAGS tgs) as [lbl|] eqn:E.
    + apply scan_tags_label in E. destruct E as (k & v & Hin & _).
      cbn in Hin.
      repeat (destruct Hin as [[= <- <- <-] | Hin]; [reflexivity|]).
      destruct Hin.
    + destruct (tgs !! "amenity") as [a|]; cbn [str_truthy default].
      * destruct (is_empty a) eqn:Ea; cbn [negb]; [|exact Ea].
        destruct (tgs !! "leisure") as [l|]; cbn [str_truthy default].
        -- destruct (is_empty l) eqn:El; cbn [negb]; [|exact El].
           destruct (tgs !! "tourism") as [t|]; cbn [str_truthy default];
             [|reflexivity].
           destruct (is_empty t) eqn:Et; cbn [negb]; [reflexivity | exact Et].
        -- destruct (tgs !! "tourism") as [t|]; cbn [str_truthy default];
             [|reflexivity].
           destruct (is_empty t) eqn:Et; cbn [negb]; [reflexivity | exact Et].
      * destruct (tgs !! "leisure") as [l|]; cbn [str_truthy default].
        -- destruct (is_empty l) eqn:El; cbn [negb]; [|exact El].
           destruct (tgs !! "tourism") as [t|]; cbn [str_truthy default];
             [|reflexivity].
           destruct (is_empty t) eqn:Et; cbn [negb]; [reflexivity | exact Et].
        -- destruct (tgs !! "tourism") as [t|]; cbn [str_truthy default];
             [|reflexivity].
           destruct (is_empty t) eqn:Et; cbn [negb]; [reflexivity | exact Et].
  - intros H.
    apply (Hfirst [] "leisure" "stadium" "Stadium" (tl POI_TAGS));
      [reflexivity | exact H | intros k v l []].
  - intros Hpark Hc Ht Hm.
    apply (Hfirst (take 6 POI_TAGS) "leisure" "park" "Park" (drop 7 POI_TAGS));
      [reflexivity | exact Hpark |].
    cbn [take firstn POI_TAGS]. no_earlier_row.
  - intros Ha Hr Hl Hs.
    apply (Hfirst (take 7 POI_TAGS) "tourism" "attraction" "Attraction"
             (drop 8 POI_TAGS));
      [reflexivity | exact Ha |].
    cbn [take firstn POI_TAGS]. no_earlier_row.
Qed.

(** A park that is also tagged as an attraction is labelled Park. *)
Lemma tag_label_from_table_witness :
  _tag_label (list_to_map [("tourism", "attraction"); ("leisure", "park")])
  = "Park".
Proof.
  apply (proj1 (proj2 (proj2 (proj2
           (tag_label_from_table
              (list_to_map [("tourism", "attraction"); ("leisure", "park")]))))));
    vm_compute; congruence.
Defined.

(** *** The loop of [get_local_spots], continued *)

Import Notions.

Section LoopMore.

Variable km : Q -> Q -> Q -> Q -> Q.
Variables (lat0 lon0 : Q) (il : string).

Lemma visit_skips (st : loop_state) (e : element) :
  skips st.2 e -> visit km lat0 lon0 il st e = st.
Proof.
  destruct st as [spots seen]. intros [H | [H | H]].
  - apply visit_unnamed_or_seen. left. exact H.
  - apply visit_unnamed_or_seen. right. exact H.
  - apply visit_without_coordinates. exact H.
Qed.

Lemma skips_mono (seen seen' : gset string) (e : element) :
  seen ⊆ seen' -> skips seen e -> skips seen' e.
Proof.
  intros Hsub [H | [(nm & Hn & Hin) | H]].
  - left. exact H.
  - right. left. exists nm. split; [exact Hn | apply Hsub, Hin].
  - right. right. exact H.
Qed.

Lemma visit_grows (st : loop_state) (e : element) :
  st.2 ⊆ (visit km lat0 lon0 il st e).2
  /\ forall s, In s st.1 -> In s (visit km lat0 lon0 il st e).1.
Proof.
  destruct (visit_cases km lat0 lon0 il st e) as [|nm la lo _ _ _ _ _].
  - split; [reflexivity | tauto].
  - cbn [fst snd]. split; [set_solver|].
    intros s Hs. apply in_app_iff. left. exact Hs.
Qed.

Lemma scan_grows (elements : list element) (st : loop_state) :
  st.2 ⊆ (scan km lat0 lon0 il elements st).2
  /\ forall s, In s st.1 -> In s (scan km lat0 lon0 il elements st).1.
Proof.
  revert st. induction elements as [|e rest IH]; intros st.
  - split; [reflexivity | tauto].
  - cbn [scan fold_left].
    destruct (visit_grows st e) as [H1 H2].
    destruct (IH (visit km lat0 lon0 il st e)) as [H3 H4].
    split; [etrans; eassumption | auto].
Qed.

(** Once visited, an element is skipped from then on. *)
Lemma visit_settles (st : loop_state) (e : element) :
  skips (visit km lat0 lon0 il st e).2 e.
Proof.
  destruct st as [spots seen]. unfold visit, skips.
  destruct (tags e !! "name") as [nm|] eqn:Hn; [|left; reflexivity].
  destruct (is_empty nm) eqn:Hne;
    [left; cbn; rewrite Hne; reflexivity|].
  destruct (bool_decide (nm ∈ seen)) eqn:Hs; cbn [orb].
  { apply bool_decide_eq_true in Hs. right. left. eauto. }
  destruct (elem_lat e) as [la|]; [|right; right; left; reflexivity].
  destruct (elem_lon e) as [lo|]; [|right; right; right; reflexivity].
  right. left. exists nm. split; [reflexivity|]. cbn [snd]. set_solver.
Qed.

Lemma scan_settles (elements : list element) (st : loop_state) (e : element) :
  In e elements -> skips (scan km lat0 lon0 il elements st).2 e.
Proof.
  revert st. induction elements as [|e0 rest IH]; intros st; [intros []|].
  cbn [scan fold_left]. intros [-> | Hin]; [|apply IH, Hin].
  eapply skips_mono; [|apply visit_settles].
  apply scan_grows.
Qed.

Lemma scan_all_skipped (elements : list element) (st : loop_state) :
  (forall e, In e elements -> skips st.2 e) ->
  scan km lat0 lon0 il elements st = st.
Proof.
  induction elements as [|e rest IH]; intros H; [reflexivity|].
  cbn [scan fold_left]. rewrite visit_skips by (apply H; left; reflexivity).
  apply IH. intros e' He'. apply H. right. exact He'.
Qed.

(** A name in [seen] is the name of an element visited before. *)
Lemma scan_seen_origin (elements : list element) (nm : string) :
  nm ∈ (scan km lat0 lon0 il elements ([], ∅)).2 ->
  exists e, In e elements /\ tags e !! "name" = Some nm.
Proof.
  intros Hin.
  destruct (scan_names_tracked km lat0 lon0 il elements ([], ∅)) as [_ Hseen].
  { split; [constructor|]. intros x. cbn. rewrite elem_of_empty. tauto. }
  apply Hseen, in_map_iff in Hin. destruct Hin as (s & <- & Hs).
  apply (scan_spots_ind km lat0 lon0 il
           (fun e s => tags e !! "name" = Some (name s))) in Hs.
  - destruct Hs as [[] | H]. exact H.
  - intros e nm' la lo _ Hn _ _. exact Hn.
Qed.

End LoopMore.

Lemma NoDup_map_same {A B : Type} (f : A -> B) (l : list A) (a b : A) :
  NoDup (map f l) -> In a l -> In b l -> f a = f b -> a = b.
Proof.
  induction l as [|x l IH]; cbn [map]; intros Hnd Ha Hb Hf; [destruct Ha|].
  apply NoDup_cons in Hnd. destruct Hnd as [Hx Hnd].
  destruct Ha as [-> | Ha]; destruct Hb as [-> | Hb].
  - reflexivity.
  - exfalso. apply Hx. rewrite Hf. apply list_elem_of_In, in_map, Hb.
  - exfalso. apply Hx. rewrite <- Hf. apply list_elem_of_In, in_map, Ha.
  - apply IH; assumption.
Qed.

(** X4.  First occurrence wins.  The first element of the response that bears a
    given name, if it has coordinates, yields the spot of that name, and no
    other spot of the result has that name. *)
Theorem collect_first_wins :
  forall (km : Q -> Q -> Q -> Q -> Q) (lat0 lon0 : Q) (il : string)
         (before_e after_e : list element) (e : element)
         (nm : string) (la lo : Q),
    tags e !! "name" = Some nm ->
    is_empty nm = false ->
    elem_lat e = Some la ->
    elem_lon e = Some lo ->
    (forall e', In e' before_e -> tags e' !! "name" <> Some nm) ->
    let spots := collect km lat0 lon0 il (before_e ++ e :: after_e) in
    In (spot_of km lat0 lon0 il nm e la lo) spots
    /\ forall s, In s spots -> name s = nm ->
                 s = spot_of km lat0 lon0 il nm e la lo.
Proof.
  intros km lat0 lon0 il before_e after_e e nm la lo Hn Hne Hla Hlo Hfirst
    spots.
  assert (Hin : In (spot_of km lat0 lon0 il nm e la lo) spots).
  { unfold spots, collect, scan. rewrite fold_left_app. cbn [fold_left].
    apply scan_grows.
    set (st := fold_left (visit km lat0 lon0 il) before_e ([], ∅)).
    assert (Hfresh : nm ∉ st.2).
    { intros Hs. apply scan_seen_origin in Hs.
      destruct Hs as (e' & He' & Hn'). exact (Hfirst e' He' Hn'). }
    destruct st as [spots0 seen0]. unfold visit. rewrite Hn, Hne, Hla, Hlo.
    rewrite (bool_decide_eq_false_2 _ Hfresh). cbn [orb fst].
    apply in_app_iff. right. left. reflexivity. }
  split; [exact Hin|].
  intros s Hs Hname.
  apply (NoDup_map_same name spots); try assumption.
  apply collect_names_distinct.
Qed.

(** Two nodes called Chutneys: the spot is the one of the first. *)
Lemma collect_first_wins_witness :
  In (spot_of grid_km 17 78 "" "Chutneys" cafe 17.025 78)
     (collect grid_km 17 78 ""
        ([stadium] ++ cafe
           :: [node [("name", "Chutneys"); ("amenity", "cinema")] 17.01 78]))
  /\ forall s,
       In s (collect grid_km 17 78 ""
               ([stadium] ++ cafe
                  :: [node [("name", "Chutneys"); ("amenity", "cinema")]
                        17.01 78])) ->
       name s = "Chutneys" ->
       s = spot_of grid_km 17 78 "" "Chutneys" cafe 17.025 78.
Proof.
  apply (collect_first_wins grid_km 17 78 "" [stadium]
           [node [("name", "Chutneys"); ("amenity", "cinema")] 17.01 78]
           cafe "Chutneys" 17.025 78);
    try reflexivity.
  intros e' [<- | []]. discriminate.
Defined.

(** X5.  Elements that repeat earlier ones add nothing: the spots of a response
    followed by elements already in it are the spots of the response. *)
Theorem collect_repeats_ignored :
  forall (km : Q -> Q -> Q -> Q -> Q) (lat0 lon0 : Q) (il : string)
         (elements again : list element),
    (forall e, In e again -> In e elements) ->
    collect km lat0 lon0 il (elements ++ again)
    = collect km lat0 lon0 il elements.
Proof.
  intros km lat0 lon0 il elements again Hsub.
  unfold collect, scan. rewrite fold_left_app.
  fold (scan km lat0 lon0 il elements ([], ∅)).
  fold (scan km lat0 lon0 il again (scan km lat0 lon0 il elements ([], ∅))).
  rewrite scan_all_skipped; [reflexivity|].
  intros e He. apply scan_settles, Hsub, He.
Qed.

(** The sample response delivered twice. *)
Lemma collect_repeats_ignored_witness :
  collect grid_km 17 78 "cricket" ([cafe; stadium] ++ [cafe; stadium])
  = collect grid_km 17 78 "cricket" [cafe; stadium].
Proof.
  apply (collect_repeats_ignored grid_km 17 78 "cricket" [cafe; stadium]
           [cafe; stadium]).
  intros e He. exact He.
Defined.

(** *** The keyword list, continued *)

Lemma is_space_lower_char (c : ascii) : is_space (lower_char c) = is_space c.
Proof.
  destruct c as [[] [] [] [] [] [] [] []]; reflexivity.
Qed.

Lemma lstrip_lower (s : string) : lstrip (lower s) = lower (lstrip s).
Proof.
  induction s as [|c r IH]; [reflexivity|].
  cbn [lower lstrip]. rewrite is_space_lower_char.
  destruct (is_space c); [exact IH | reflexivity].
Qed.

Lemma rstrip_lower (s : string) : rstrip (lower s) = lower (rstrip s).
Proof.
  induction s as [|c r IH]; [reflexivity|].
  cbn [lower rstrip]. rewrite IH, lower_is_empty, is_space_lower_char.
  destruct (is_empty (rstrip r) && is_space c); reflexivity.
Qed.

Lemma strip_lower (s : string) : strip (lower s) = lower (strip s).
Proof.
  unfold strip. rewrite lstrip_lower, rstrip_lower. reflexivity.
Qed.

Lemma lstrip_no_lead (s : string) : no_lead (lstrip s).
Proof.
  induction s as [|c r IH]; [exact I|].
  cbn [lstrip]. destruct (is_space c) eqn:E; [exact IH | exact E].
Qed.

Lemma no_lead_lstrip (s : string) : no_lead s -> lstrip s = s.
Proof.
  destruct s as [|c r]; [reflexivity|]. cbn. intros ->. reflexivity.
Qed.

Lemma rstrip_no_lead (s : string) : no_lead s -> no_lead (rstrip s).
Proof.
  destruct s as [|c r]; [exact id|]. cbn [no_lead rstrip]. intros E.
  rewrite E, andb_false_r. exact E.
Qed.

Lemma rstrip_idempotent (s : string) : rstrip (rstrip s) = rstrip s.
Proof.
  induction s as [|c r IH]; [reflexivity|].
  cbn [rstrip].
  destruct (is_empty (rstrip r) && is_space c) eqn:E; [reflexivity|].
  cbn [rstrip]. rewrite IH, E. reflexivity.
Qed.

Lemma strip_idempotent (s : string) : strip (strip s) = strip s.
Proof.
  unfold strip.
  rewrite (no_lead_lstrip (rstrip (lstrip s)))
    by apply rstrip_no_lead, lstrip_no_lead.
  apply rstrip_idempotent.
Qed.

(** X9.  Every keyword is in canonical form: not empty, in lower case, without
    blanks around it, so that trimming or lower-casing it again changes
    nothing; and interests that are absent or hold only blanks and commas
    give no keyword, in which case the keyword test lets every item pass. *)
Theorem keywords_canonical :
  forall (interests : option string),
    (forall k, In k (keywords interests) ->
               is_empty k = false /\ lower k = k /\ strip k = k)
    /\ ((forall token, In token (split_comma (default "" interests)) ->
                       is_empty (strip token) = true) ->
        keywords interests = []
        /\ forall item, keyword_ok (keywords interests) item = true).
Proof.
  intros interests. split.
  - intros k Hk. destruct (keywords_clean interests k Hk) as [Hne Hl].
    split; [exact Hne|]. split; [exact Hl|].
    apply keywords_spec in Hk. destruct Hk as (token & _ & _ & ->).
    rewrite strip_lower, strip_idempotent. reflexivity.
  - intros Hblank.
    assert (E : keywords interests = []).
    { unfold keywords.
      induction (split_comma (default "" interests)) as [|t rest IH];
        [reflexivity|].
      cbn [List.filter]. rewrite (Hblank t) by (left; reflexivity).
      cbn [negb]. apply IH. intros token Ht. apply Hblank. right. exact Ht. }
    split; [exact E|]. intros item. rewrite E. reflexivity.
Qed.

(** Interests made of blanks and commas only. *)
Lemma keywords_canonical_witness :
  keywords (Some " , ,,  ") = []
  /\ forall item, keyword_ok (keywords (Some " , ,,  ")) item = true.
Proof.
  apply (proj2 (keywords_canonical (Some " , ,,  "))).
  intros token Ht. vm_compute in Ht.
  repeat (destruct Ht as [<- | Ht]; [reflexivity|]). destruct Ht.
Defined.

(** *** The age written next to a headline *)

(** X10.  The age of a headline in terms of the time elapsed since it was
    published: less than an hour (or a date in the future) reads "just now",
    less than a day reads the whole hours elapsed, from 1 to 23, and anything
    older reads the whole days elapsed, at least 1.  A date that does not
    parse reads "recent". *)
Theorem news_age_buckets :
  forall (parse_pub_date : string -> option datetime) (now : datetime)
         (pub_date : string),
    (parse_pub_date pub_date = None ->
     _format_news_age parse_pub_date now pub_date = "recent")
    /\ (forall published,
          parse_pub_date pub_date = Some published ->
          let elapsed := (micros now - micros published)%Z in
          let hour := 3600000000%Z in
          (elapsed < hour ->
           _format_news_age parse_pub_date now pub_date = "just now")%Z
          /\ (hour <= elapsed < 24 * hour ->
              exists h,
                1 <= h <= 23 /\ h * hour <= elapsed < (h + 1) * hour
                /\ _format_news_age parse_pub_date now pub_date
                   = show_Z h ++ "h ago")%Z
          /\ (24 * hour <= elapsed ->
              exists d,
                1 <= d /\ d * (24 * hour) <= elapsed < (d + 1) * (24 * hour)
                /\ _format_news_age parse_pub_date now pub_date
                   = show_Z d ++ "d ago")%Z).
Proof.
  intros parse_pub_date now pub_date. split.
  - unfold _format_news_age. intros ->. reflexivity.
  - intros published Hp elapsed hour. unfold _format_news_age. rewrite Hp.
    fold elapsed.
    pose proof (Z.div_mod elapsed 3600000000 ltac:(lia)) as Hdm.
    pose proof (Z.mod_pos_bound elapsed 3600000000 ltac:(lia)) as Hmod.
    set (h := (elapsed / 3600000000)%Z) in *.
    pose proof (Z.div_mod h 24 ltac:(lia)) as Hdm2.
    pose proof (Z.mod_pos_bound h 24 ltac:(lia)) as Hmod2.
    set (d := (h / 24)%Z) in *.
    unfold hour. split; [|split].
    + intros Hlt. destruct (Z.ltb_spec h 1); [reflexivity | lia].
    + intros Hr. exists h.
      destruct (Z.ltb_spec h 1); [lia|].
      destruct (Z.ltb_spec h 24); [|lia].
      repeat split; try lia.
    + intros Hr. exists d.
      destruct (Z.ltb_spec h 1); [lia|].
      destruct (Z.ltb_spec h 24); [lia|].
      repeat split; try lia.
Qed.

(** The final report, published at 08:00, read at 09:30 and at 20:00. *)
Lemma news_age_buckets_witness :
  (exists h,
      1 <= h <= 23
      /\ _format_news_age feed_dates morning "Sun, 01 Jun 2025 08:00:00 GMT"
         = show_Z h ++ "h ago")%Z
  /\ _format_news_age feed_dates evening "gibberish" = "recent".
Proof.
  split.
  - destruct (proj2 (news_age_buckets feed_dates morning
                       "Sun, 01 Jun 2025 08:00:00 GMT") _ eq_refl)
      as (_ & H & _).
    destruct H as (h & Hh & _ & E); [vm_compute; split; [discriminate | reflexivity]|].
    exists h. split; assumption.
  - apply (proj1 (news_age_buckets feed_dates evening "gibberish")).
    reflexivity.
Defined.

(** *** Bounds on the score *)

Lemma bonus_bounds (interest lbl : string) :
  (0 <= bonus interest lbl <= 3.5)%Q.
Proof.
  unfold bonus.
  destruct (bool_decide (lbl = "Mall")) eqn:E.
  - apply bool_decide_eq_true in E. subst lbl.
    change (contains "stadium" (lower "Mall")) with false.
    change (contains "cinema" (lower "Mall")) with false.
    rewrite !andb_false_r, andb_true_r.
    destruct (contains_any _ _); split; vm_compute; discriminate.
  - rewrite andb_false_r.
    destruct (contains "cricket" (lower interest)
              && contains "stadium" (lower lbl));
    destruct (contains "movie" (lower interest)
              && contains "cinema" (lower lbl));
    split; vm_compute; discriminate.
Qed.

(** X6.  The interest can only improve a venue's rank, and by a bounded amount:
    with non-negative distances the score lies between the distance less 3.5
    and the distance, a venue that earns no bonus scores its distance, and
    without an interest every venue does, so that the ranking is by distance
    alone. *)
Theorem score_within_bonus :
  forall (km : Q -> Q -> Q -> Q -> Q) (lat0 lon0 : Q)
         (interest : option string) (elements : list element) (s : spot),
    (forall a b c d, 0 <= km a b c d)%Q ->
    In s (collect km lat0 lon0 (lower (default "" interest)) elements) ->
    (distance s - 3.5 <= score s <= distance s)%Q
    /\ ((bonus (default "" interest) (label s) == 0)%Q ->
        (score s == distance s)%Q)
    /\ (is_empty (default "" interest) = true -> (score s == distance s)%Q).
Proof.
  intros km lat0 lon0 interest elements s Hkm Hs.
  apply collect_spot in Hs.
  destruct Hs as ((e & la & lo & _ & _ & _ & _ & _ & Hd) & Hsc & _).
  assert (Hpos : (0 <= distance s)%Q) by (rewrite Hd; apply Hkm).
  pose proof (bonus_bounds (default "" interest) (label s)) as [Hb0 Hb1].
  unfold stated_score in Hsc.
  assert (Hzero : (bonus (default "" interest) (label s) == 0)%Q ->
                  (score s == distance s)%Q).
  { intros Hb.
    destruct (Q.max_spec 0 (distance s - bonus (default "" interest) (label s)))
      as [[L E] | [L E]]; rewrite E in Hsc; lra. }
  split; [|split].
  - destruct (Q.max_spec 0 (distance s - bonus (default "" interest) (label s)))
      as [[L E] | [L E]]; rewrite E in Hsc; lra.
  - exact Hzero.
  - intros He. apply Hzero.
    destruct (default "" interest); [reflexivity | discriminate].
Qed.

(** The Hyderabad response read without an interest. *)
Lemma score_within_bonus_witness :
  exists s,
    In s (collect grid_km 17 78 (lower (default "" None)) [cafe; stadium])
    /\ name s = "Gachibowli Stadium"
    /\ (score s == distance s)%Q.
Proof.
  set (spots := collect grid_km 17 78 (lower (default "" None))
                  [cafe; stadium]).
  set (dummy := {| name := ""; label := ""; distance := 0; score := 0 |}).
  assert (H : In (nth 1 spots dummy) spots)
    by (vm_compute; right; left; reflexivity).
  exists (nth 1 spots dummy). split; [exact H|]. split; [reflexivity|].
  apply (proj2 (proj2 (score_within_bonus grid_km 17 78 None [cafe; stadium]
                         _ grid_km_nonneg H))).
  reflexivity.
Defined.

(** *** Substrings *)

Lemma prefix_append (x t : string) : String.prefix x (x ++ t) = true.
Proof.
  induction x as [|c x IH]; [destruct t; reflexivity|].
  change ((if ascii_dec c c then String.prefix x (x ++ t) else false) = true).
  destruct (ascii_dec c c); [exact IH | congruence].
Qed.

Lemma contains_here (x t : string) : contains x (x ++ t) = true.
Proof.
  destruct x as [|c x]; [destruct t; reflexivity|].
  change (String c x ++ t) with (String c (x ++ t)).
  pose proof (prefix_append (String c x) t) as H.
  change (String c x ++ t) with (String c (x ++ t)) in H.
  cbn [contains]. rewrite H. reflexivity.
Qed.

Lemma contains_later (x a t : string) :
  contains x t = true -> contains x (a ++ t) = true.
Proof.
  intros H. induction a as [|c a IH]; [exact H|].
  change (String c a ++ t) with (String c (a ++ t)).
  cbn [contains]. rewrite IH. apply orb_true_r.
Qed.


(** *** The workflow past its guard *)




(** A run in which the weather task fails: the workflow raises, and the
    insights and planning tasks are not run. *)
Example workflow_stops_at_failure :
  let run :=
    plan_day_workflow
      (fun role _ _ =>
         if String.eqb role weather_role then Raise RequestException
         else Return ("output of " ++ role))
      false [("location", "Hyderabad")] "2025-06-01" None None [] in
  fst run = Raise RequestException
  /\ map kind (snd run)
     = [ "llm"; "agent: User Data Curator"; "agent: Climate Analyst";
         "agent: City Culture Scout"; "agent: Personal Day Planner";
         "task: User Data Curator"; "task: Climate Analyst" ].
Proof. split; reflexivity. Qed.

(** *** The page *)

Import App.






(** A run in which the weather task fails: two stage messages, then the
    error, and nothing stored. *)
Example run_plan_task_failure :
  run_plan
    (fun role _ _ =>
       if String.eqb role weather_role then Raise RequestException
       else Return ("output of " ++ role))
    (fun _ => "model unreachable")
    [("location", "Hyderabad")] "2025-06-01" None None
    {| result := None; last_status_log := None; last_payload := None;
       latest_inputs := None |}
  = ({| result := None; last_status_log := None; last_payload := None;
        latest_inputs := None |},
     [ Status "🧠 Summarizing your vibe for this day off...";
       Status "🌤️ Checking the weather and comfort levels for the day...";
       Error "Plan generation failed: model unreachable" ]).
Proof. reflexivity. Qed.





(** *** The query and the tag table *)

Import Query.

Lemma contains_join (sep p : string) (parts : list string) :
  In p parts -> contains p (join sep parts) = true.
Proof.
  induction parts as [|q rest IH]; [intros []|].
  destruct rest as [|r rest'].
  - intros [-> | []]. cbn [join].
    rewrite <- (append_empty_r p) at 2. apply contains_here.
  - intros [-> | Hin].
    + change (join sep (p :: r :: rest'))
        with (p ++ sep ++ join sep (r :: rest')).
      apply contains_here.
    + change (join sep (q :: r :: rest'))
        with (q ++ sep ++ join sep (r :: rest')).
      apply contains_later, contains_later, IH, Hin.
Qed.

Lemma prefix_app_l (x hay tail : string) :
  String.prefix x hay = true -> String.prefix x (hay ++ tail) = true.
Proof.
  revert hay. induction x as [|c x IH]; intros hay H.
  - destruct (hay ++ tail); reflexivity.
  - destruct hay as [|y hay]; [discriminate|].
    change (String y hay ++ tail) with (String y (hay ++ tail)).
    cbn [String.prefix] in H |- *.
    destruct (ascii_dec c y); [apply IH, H | discriminate].
Qed.

Lemma contains_unfold (x hay : string) :
  contains x hay
  = String.prefix x hay
    || match hay with
       | EmptyString => false
       | String _ r => contains x r
       end.
Proof. destruct hay; reflexivity. Qed.

Lemma contains_app_l (x hay tail : string) :
  contains x hay = true -> contains x (hay ++ tail) = true.
Proof.
  induction hay as [|c hay IH]; intros H.
  - rewrite contains_unfold in H. rewrite orb_false_r in H.
    rewrite contains_unfold. rewrite (prefix_app_l x "" tail H). reflexivity.
  - change (String c hay ++ tail) with (String c (hay ++ tail)).
    rewrite contains_unfold in H. rewrite contains_unfold.
    apply orb_true_iff in H. apply orb_true_iff.
    destruct H as [H | H]; [left | right; apply IH, H].
    apply (prefix_app_l x (String c hay) tail H).
Qed.

(** X3.  The query asks for every tag pair of the table: for each row it holds the
    selector of that row, for nodes within the given radius of the given
    point; so every kind of place [_tag_label] has a label for is asked
    for. *)
Theorem overpass_query_covers_table :
  forall (show_float : Q -> string) (lat lon : Q) (radius_m : Z)
         (key value lbl : string),
    In (key, value, lbl) POI_TAGS ->
    contains
      ("  node(around:" ++ show_Z radius_m ++ "," ++ show_float lat ++ ","
       ++ show_float lon ++ ")[" ++ dquote ++ key ++ dquote ++ "=" ++ dquote
       ++ value ++ dquote ++ "];")
      (_overpass_query show_float lat lon radius_m) = true.
Proof.
  intros show_float lat lon radius_m key value lbl Hin.
  change ("  node(around:" ++ show_Z radius_m ++ "," ++ show_float lat ++ ","
          ++ show_float lon ++ ")[" ++ dquote ++ key ++ dquote ++ "="
          ++ dquote ++ value ++ dquote ++ "];")
    with (selector show_float radius_m lat lon (key, value, lbl)).
  unfold _overpass_query.
  do 5 apply contains_later.
  apply contains_app_l, contains_join, in_map, Hin.
Qed.

(** The selector for malls around Hyderabad. *)
Lemma overpass_query_covers_table_witness :
  contains
    ("  node(around:" ++ show_Z 8000 ++ "," ++ "17.0" ++ "," ++ "78.0"
     ++ ")[" ++ dquote ++ "shop" ++ dquote ++ "=" ++ dquote ++ "mall"
     ++ dquote ++ "];")
    (_overpass_query (fun q => format_1f q) 17 78 8000) = true.
Proof.
  apply (overpass_query_covers_table (fun q => format_1f q) 17 78 8000
           "shop" "mall" "Mall").
  vm_compute. tauto.
Defined.

(** *** What the report leaves out *)

Lemma in_drop {A : Type} (x : A) (n : nat) (l : list A) :
  In x (drop n l) -> In x l.
Proof.
  revert l. induction n as [|n IH]; intros [|y l]; cbn; try tauto.
  intros H. right. apply IH, H.
Qed.

Lemma sorted_take_drop (l : list spot) (n : nat) (s t : spot) :
  StronglySorted by_score l ->
  In s (take n l) -> In t (drop n l) -> by_score s t.
Proof.
  intros Hs. revert n. induction Hs as [|x rest Hrest IH Hall]; intros n Hin Ht.
  - rewrite take_nil in Hin. destruct Hin.
  - destruct n as [|n]; [destruct Hin|].
    cbn [take firstn drop skipn] in Hin, Ht.
    destruct Hin as [<- | Hin]; [|exact (IH n Hin Ht)].
    rewrite Forall_forall in Hall. apply Hall, list_elem_of_In.
    exact (in_drop _ _ _ Ht).
Qed.

(** X7.  The report keeps the best: every spot is either among the seven shown or
    among those left out, no spot left out scores less than a spot shown, and
    with seven spots or fewer none is left out. *)
Theorem report_keeps_the_best :
  forall spots : list spot,
    Permutation (take 7 (sort_by_score spots) ++ drop 7 (sort_by_score spots))
      spots
    /\ (forall s t,
          In s (take 7 (sort_by_score spots)) ->
          In t (drop 7 (sort_by_score spots)) ->
          (score s <= score t)%Q)
    /\ ((length spots <= 7)%nat ->
        take 7 (sort_by_score spots) = sort_by_score spots
        /\ drop 7 (sort_by_score spots) = []).
Proof.
  intros spots. split; [|split].
  - rewrite take_drop. apply sort_by_score_perm.
  - intros s t Hs Ht.
    exact (sorted_take_drop _ 7 s t (sort_by_score_sorted spots) Hs Ht).
  - intros Hlen.
    assert (Hl : (length (sort_by_score spots) <= 7)%nat).
    { rewrite (Permutation_length (sort_by_score_perm spots)). exact Hlen. }
    split; [apply take_ge, Hl | apply drop_ge, Hl].
Qed.

(** Two spots: both are shown. *)
Lemma report_keeps_the_best_witness :
  take 7 (sort_by_score (collect grid_km 17 78 "cricket" [cafe; stadium]))
  = sort_by_score (collect grid_km 17 78 "cricket" [cafe; stadium])
  /\ drop 7 (sort_by_score (collect grid_km 17 78 "cricket" [cafe; stadium]))
     = [].
Proof.
  apply (proj2 (proj2 (report_keeps_the_best
                         (collect grid_km 17 78 "cricket" [cafe; stadium])))).
  vm_compute. lia.
Defined.

(** *** Ages on the day itself *)

(** X11.  A dated headline that passes the date test for today, read today, is
    less than a day from now: its age reads "just now" or a number of hours
    from 1 to 23, never a number of days. *)
Theorem same_day_age :
  forall (parse_pub_date : string -> option datetime) (now : datetime)
         (item : news_item) (published : datetime),
    is_empty (pub_date_of item) = false ->
    parse_pub_date (pub_date_of item) = Some published ->
    date_ok parse_pub_date (on now) item = true ->
    valid_time now -> valid_time published ->
    _format_news_age parse_pub_date now (pub_date_of item) = "just now"
    \/ exists h,
         (1 <= h <= 23)%Z
         /\ _format_news_age parse_pub_date now (pub_date_of item)
            = show_Z h ++ "h ago".
Proof.
  intros parse_pub_date now item published Hne Hp Hok Hnow Hpub.
  unfold date_ok in Hok. rewrite Hp, Hne in Hok. cbn [orb] in Hok.
  apply date_eqb_eq in Hok.
  unfold _format_news_age. rewrite Hp.
  assert (Hlt : (micros now - micros published < 24 * 3600000000)%Z).
  { unfold micros. rewrite Hok. unfold valid_time in *.
    generalize (toordinal (on now)). intros T. lia. }
  pose proof (Z.div_mod (micros now - micros published) 3600000000
                ltac:(lia)) as Hdm.
  pose proof (Z.mod_pos_bound (micros now - micros published) 3600000000
                ltac:(lia)) as Hmod.
  set (h := ((micros now - micros published) / 3600000000)%Z) in *.
  destruct (Z.ltb_spec h 1); [left; reflexivity|].
  destruct (Z.ltb_spec h 24); [|lia].
  right. exists h. split; [lia | reflexivity].
Qed.

(** The final report of 08:00, read at 20:00 the same day. *)
Lemma same_day_age_witness :
  _format_news_age feed_dates evening (pub_date_of final_report) = "just now"
  \/ exists h,
       (1 <= h <= 23)%Z
       /\ _format_news_age feed_dates evening (pub_date_of final_report)
          = show_Z h ++ "h ago".
Proof.
  apply (same_day_age feed_dates evening final_report
           {| on := june_1; hour := 8; minute := 0; second := 0;
              microsecond := 0 |});
    try reflexivity; unfold valid_time; cbn; lia.
Defined.
